(** * COMPASS recommendation engine: a shallow embedding of
      [recommendation_engine.py] and the properties of its retrieval
      pipeline.

    The development follows the source file top to bottom:
    - [Py]: the fragments of the Python runtime the engine relies on
      (exceptions, [str.split], [str.strip], [str.splitlines], list
      indexing, [str] of an integer, fixed-point [format]);
    - [VectorIndex]: the flat L2 index the engine obtains from the faiss
      library ([IndexFlatL2], [add], [write_index], [read_index],
      [search]);
    - [Engine]: [build_or_load_index], [create_customer_query] and
      [get_recommendation], over a file system, an embedding model and a
      generation service.

    Numbers: Python [int] values are [Z]; [float] values are the exact
    rationals they denote ([Q]), so that formatting and ordering are the
    exact operations on those values.  Characters are code points below
    256, i.e. [ascii]. *)

From Stdlib Require Import ZArith QArith Qabs Qround Lqa Lia List Ascii String DecimalString Sorted.
From stdpp Require Import base option list strings gmap.

Local Open Scope Z_scope.

(* ===================================================================== *)
(** * Python runtime fragments                                            *)
(* ===================================================================== *)

Module Py.

(** Exceptions the engine can meet.  [exn_name] is the class name, which
    is what a caller sees and what the specification's taxonomy talks
    about. *)
Inductive exn : Type :=
| FileNotFoundError (path : string)
| IndexError
| AssertionError
| RuntimeError
| UnicodeDecodeError
| ServiceError (cause : string).

Definition exn_name (e : exn) : string :=
  match e with
  | FileNotFoundError _ => "FileNotFoundError"
  | IndexError => "IndexError"
  | AssertionError => "AssertionError"
  | RuntimeError => "RuntimeError"
  | UnicodeDecodeError => "UnicodeDecodeError"
  | ServiceError _ => "APIError"
  end.

(** The outcome of a call: a returned value or a raised exception. *)
Inductive result (A : Type) : Type :=
| Return (a : A)
| Raise (e : exn).
Arguments Return {A} a.
Arguments Raise {A} e.

Definition bind {A B : Type} (r : result A) (k : A -> result B) : result B :=
  match r with
  | Return a => k a
  | Raise e => Raise e
  end.

Notation "'do' x <- r ; k" := (bind r (fun x => k))
  (at level 10, x name, r at level 100, k at level 200).

Definition returned {A : Type} (r : result A) : bool :=
  match r with Return _ => true | Raise _ => false end.

Fixpoint mapM {A B : Type} (f : A -> result B) (l : list A) : result (list B) :=
  match l with
  | [] => Return []
  | a :: l' => do b <- f a; do bs <- mapM f l'; Return (b :: bs)
  end.

(** ** Characters *)

Definition nl : string := String (ascii_of_nat 10) EmptyString.

(** [str.isspace] on one character, for code points below 256:
    U+0009..U+000D, U+001C..U+001F, U+0020, U+0085 and U+00A0. *)
Definition is_space (c : ascii) : bool :=
  let n := nat_of_ascii c in
  ((9 <=? n) && (n <=? 13) || (28 <=? n) && (n <=? 32)
   || (n =? 133) || (n =? 160))%nat.

(** The line boundaries of [str.splitlines] below 256: LF, VT, FF, CR,
    FS, GS, RS and NEL. *)
Definition is_linebreak (c : ascii) : bool :=
  let n := nat_of_ascii c in
  ((10 <=? n) && (n <=? 13) || (28 <=? n) && (n <=? 30) || (n =? 133))%nat.

Definition is_empty (s : string) : bool :=
  match s with EmptyString => true | String _ _ => false end.

(** ** Text-mode reading

    [open(path, 'r')] reads with universal newlines: a CR LF pair and a
    lone CR both arrive as one LF. *)
Definition CR : ascii := ascii_of_nat 13.
Definition LF : ascii := ascii_of_nat 10.

Fixpoint universal_newlines (s : string) : string :=
  match s with
  | EmptyString => EmptyString
  | String c s' =>
      if Ascii.eqb c CR then
        match s' with
        | String c' s'' =>
            if Ascii.eqb c' LF then String LF (universal_newlines s'')
            else String LF (universal_newlines s')
        | EmptyString => String LF EmptyString
        end
      else String c (universal_newlines s')
  end.

(** ** [str.strip] *)

Fixpoint lstrip (s : string) : string :=
  match s with
  | EmptyString => EmptyString
  | String c s' => if is_space c then lstrip s' else s
  end.

Fixpoint rstrip (s : string) : string :=
  match s with
  | EmptyString => EmptyString
  | String c s' =>
      let r := rstrip s' in
      if is_empty r && is_space c then EmptyString else String c r
  end.

Definition strip (s : string) : string := rstrip (lstrip s).

(** ** [str.split(sep)] with a non-empty separator

    The scan goes left to right over non-overlapping occurrences of
    [sep].  [skip] counts the characters of a matched separator that are
    still to be consumed.  The result is the segment in progress and the
    segments after it. *)
Fixpoint split_go (sep : string) (skip : nat) (s : string) : string * list string :=
  match s with
  | EmptyString => (EmptyString, [])
  | String c s' =>
      match skip with
      | S n => split_go sep n s'
      | O =>
          if String.prefix sep s
          then let '(seg, segs) := split_go sep (String.length sep - 1) s' in
               (EmptyString, seg :: segs)
          else let '(seg, segs) := split_go sep 0 s' in
               (String c seg, segs)
      end
  end.

Definition split (sep s : string) : list string :=
  let '(seg, segs) := split_go sep 0 s in seg :: segs.

(** ** [str.splitlines()[0]]

    The first line of a string; the empty string has no lines, so the
    subscript raises [IndexError]. *)
Fixpoint first_line_go (s : string) : string :=
  match s with
  | EmptyString => EmptyString
  | String c s' => if is_linebreak c then EmptyString else String c (first_line_go s')
  end.

Definition first_line (s : string) : result string :=
  if is_empty s then Raise IndexError else Return (first_line_go s).

(** ** List subscript [l[i]] with Python's negative indices *)
Definition getitem {A : Type} (l : list A) (i : Z) : result A :=
  let n := Z.of_nat (List.length l) in
  if (0 <=? i) && (i <? n) then
    match l !! Z.to_nat i with Some a => Return a | None => Raise IndexError end
  else if (- n <=? i) && (i <? 0) then
    match l !! Z.to_nat (n + i) with Some a => Return a | None => Raise IndexError end
  else Raise IndexError.

(** ** [str(n)] for an integer *)
Definition str_int (n : Z) : string := NilZero.string_of_int (Z.to_int n).

(** ** [format(x, '.<p>f')] for a finite float

    Python prints the correctly rounded decimal expansion of the exact
    value, ties to even, and keeps the sign of a negative value that
    rounds to zero. *)
Definition round_half_even (q : Q) : Z :=
  let fl := Qfloor q in
  match Qcompare (q - inject_Z fl) (1 # 2) with
  | Lt => fl
  | Gt => fl + 1
  | Eq => if Z.even fl then fl else fl + 1
  end.

(** The last [p] decimal digits of [m], most significant first. *)
Definition digit (m : Z) : ascii := ascii_of_nat (48 + Z.to_nat (m mod 10)).

Fixpoint frac_digits (p : nat) (m : Z) : string :=
  match p with
  | O => EmptyString
  | S p' => frac_digits p' (m / 10) +:+ String (digit m) EmptyString
  end.

Definition sign_of (q : Q) : string :=
  if Z.ltb (Qnum q) 0 then "-" else "".

(** The magnitude of [q] in units of [10^-p], correctly rounded. *)
Definition scaled (p : nat) (q : Q) : Z :=
  round_half_even (Qabs q * inject_Z (10 ^ Z.of_nat p)).

Definition format_f (p : nat) (q : Q) : string :=
  let m := scaled p q in
  let whole := str_int (m / 10 ^ Z.of_nat p) in
  match p with
  | O => sign_of q +:+ whole
  | S _ => sign_of q +:+ whole +:+ "." +:+ frac_digits p m
  end.

End Py.

(* ===================================================================== *)
(** * The vector index                                                    *)
(* ===================================================================== *)

(** The engine takes its index from the faiss library: the source only
    calls [faiss.IndexFlatL2], [index.add], [faiss.write_index],
    [faiss.read_index] and [index.search].  Their bodies are not part of
    the repository, so this module follows the specification's section
    on the vector index. *)
Module VectorIndex.
Import Py.

Definition vector : Type := list Q.

(** Modelled from the spec: the vector index (faiss's [IndexFlat], absent
    from the sources): an ordered collection of vectors together with the
    recorded dimensionality [d]. *)
Record Index : Type := mkIndex { d : nat; xb : list vector }.

Definition ntotal (idx : Index) : nat := List.length (xb idx).

(** Every stored vector has the recorded dimensionality. *)
Definition well_formed (idx : Index) : Prop :=
  Forall (fun v => List.length v = d idx) (xb idx).

(** Modelled from the spec: [faiss.IndexFlatL2(d)] (absent from the
    sources), the empty index that records the dimensionality. *)
Definition IndexFlatL2 (dim : nat) : Index := mkIndex dim [].

(** Modelled from the spec: [index.add(embeddings)] (absent from the
    sources), which stores the vectors in insertion order; a row of a
    different dimensionality is refused. *)
Definition add (idx : Index) (rows : list vector) : result Index :=
  if forallb (fun v => Nat.eqb (List.length v) (d idx)) rows
  then Return (mkIndex (d idx) (xb idx ++ rows))
  else Raise AssertionError.

(** Modelled from the spec: [faiss.write_index] (absent from the
    sources).  The blob is the sequence of numbers: dimensionality, vector
    count, then the stored values row after row. *)
Definition write_index (idx : Index) : list Q :=
  inject_Z (Z.of_nat (d idx)) :: inject_Z (Z.of_nat (ntotal idx)) :: concat (xb idx).

Fixpoint chunk (width count : nat) (data : list Q) : list vector :=
  match count with
  | O => []
  | S count' => take width data :: chunk width count' (drop width data)
  end.

Definition header_field (q : Q) : option nat :=
  if (0 <=? Qnum q) && Pos.eqb (Qden q) 1 then Some (Z.to_nat (Qnum q)) else None.

(** Modelled from the spec: [faiss.read_index] (absent from the sources),
    the inverse of [write_index]; a blob whose header does not match its
    payload is refused. *)
Definition read_index (blob : list Q) : option Index :=
  match blob with
  | hd :: hn :: data =>
      match header_field hd, header_field hn with
      | Some dim, Some n =>
          if Nat.eqb (List.length data) (dim * n)
          then Some (mkIndex dim (chunk dim n data))
          else None
      | _, _ => None
      end
  | _ => None
  end.

(** Squared Euclidean distance. *)
Definition sq_l2 (x y : vector) : Q :=
  foldr Qplus 0%Q (zip_with (fun a b => (a - b) * (a - b))%Q x y).

(** A hit is a position in the index and the distance of the vector
    stored there. *)
Definition hit : Type := nat * Q.

Fixpoint score_from (pos : nat) (q : vector) (rows : list vector) : list hit :=
  match rows with
  | [] => []
  | v :: rows' => (pos, sq_l2 q v) :: score_from (S pos) q rows'
  end.

(** Stable insertion: [h] goes in front of the first hit that is not
    closer than it. *)
Fixpoint insert_hit (h : hit) (l : list hit) : list hit :=
  match l with
  | [] => [h]
  | h' :: l' => if Qle_bool (snd h) (snd h') then h :: l else h' :: insert_hit h l'
  end.

Definition sort_hits (l : list hit) : list hit := foldr insert_hit [] l.

(** Modelled from the spec: [index.search(query_vector, k)] (absent from
    the sources): the hits ordered by ascending squared Euclidean
    distance, ties by ascending position, cut to at most [k]. *)
Definition search (idx : Index) (q : vector) (k : nat) : list hit :=
  take k (sort_hits (score_from 0 q (xb idx))).

End VectorIndex.

(* ===================================================================== *)
(** * The recommendation engine                                           *)
(* ===================================================================== *)

Module Engine.
Import Py VectorIndex.

(** ** Configuration *)

Definition PRODUCT_KB_PATH : string := "products.txt".
Definition INDEX_PATH : string := "faiss_index.bin".

(** The separator both paths of [build_or_load_index] pass to
    [str.split]: thirty-two dashes. *)
Definition KB_DELIMITER : string := "--------------------------------".

(** ** Files

    A path holds a text file or an index blob.  The content of a text
    file is its text as text-mode reading delivers it: decoded, every line
    end an LF ([Disk.text_file] below gives the file for the characters
    stored on disk).  [open(path, 'r')] raises [FileNotFoundError] on a
    missing path; [faiss.read_index] raises [RuntimeError] on anything it
    cannot parse. *)
Inductive file : Type :=
| TextFile (content : string)
| IndexFile (blob : list Q).

Abbreviation filesystem := (gmap string file).

Definition path_exists (fs : filesystem) (path : string) : bool :=
  match fs !! path with Some _ => true | None => false end.

Definition read_text (fs : filesystem) (path : string) : result string :=
  match fs !! path with
  | None => Raise (FileNotFoundError path)
  | Some (TextFile content) => Return content
  | Some (IndexFile _) => Raise UnicodeDecodeError
  end.

Definition faiss_read_index (fs : filesystem) (path : string) : result Index :=
  match fs !! path with
  | Some (IndexFile blob) =>
      match read_index blob with
      | Some idx => Return idx
      | None => Raise RuntimeError
      end
  | _ => Raise RuntimeError
  end.

Definition faiss_write_index (idx : Index) (path : string) (fs : filesystem) : filesystem :=
  <[path := IndexFile (write_index idx)]> fs.

(** ** The two ways the source reads the knowledge base

    Load-existing path (source lines 33-34): the raw segments. *)
Definition raw_segments (delim corpus : string) : list string :=
  split delim corpus.

(** Fresh-build path (source lines 38-40): the comprehension
    [[text.strip() for text in product_texts if text.strip()]]. *)
Definition stripped_segments (delim corpus : string) : list string :=
  map strip (List.filter (fun text => negb (is_empty (strip text))) (split delim corpus)).

(** The loader as the specification words it: trim every segment, then
    discard the empty ones. *)
Definition documents_spec (delim corpus : string) : list string :=
  List.filter (fun doc => negb (is_empty doc)) (map strip (split delim corpus)).

(** [embeddings.shape[1]]: an empty batch comes back as an array with a
    single axis, whose second extent does not exist. *)
Definition shape1 (embeddings : list vector) : result nat :=
  match embeddings with
  | [] => Raise IndexError
  | v :: _ => Return (List.length v)
  end.

(** ** Customer records and generation requests *)

Record CustomerProfile : Type := mkProfile {
  customer_id : Z;
  age : Z;
  income : Q;
  credit_score : Z;
  debt_to_income_ratio : Q;
  product_count : Z;
  existing_products : string;
  engagement_score : Z;
  employment_status : string
}.

Record Message : Type := mkMessage { role : string; content : string }.

Record Request : Type := mkRequest {
  model : string;
  messages : list Message;
  temperature : Q
}.

Definition NOT_FOUND_MESSAGE : string := "Error: Customer ID not found.".

(** [create_customer_query] (source lines 54-68). *)
Definition create_customer_query (customer_data : CustomerProfile) : string :=
  "Customer profile: "
  +:+ "Age " +:+ str_int (age customer_data) +:+ ". "
  +:+ "Income of $" +:+ format_f 0 (income customer_data) +:+ ". "
  +:+ "Credit score is " +:+ str_int (credit_score customer_data) +:+ ". "
  +:+ "Debt-to-income ratio is " +:+ format_f 2 (debt_to_income_ratio customer_data) +:+ ". "
  +:+ "Holds " +:+ str_int (product_count customer_data) +:+ " products, including: "
  +:+ existing_products customer_data +:+ ". "
  +:+ "Digital engagement score is " +:+ str_int (engagement_score customer_data) +:+ ". "
  +:+ "Employment status: " +:+ employment_status customer_data +:+ ".".

(** The pieces of the prompt literal (source lines 93-109) around its
    four interpolations. *)
Definition ROLE_INSTRUCTION : string :=
  "You are an expert banking relationship manager. Your task is to recommend the single best product for a customer based on their profile and a list of relevant products.".

Definition prompt_head : string :=
  nl +:+ "    " +:+ ROLE_INSTRUCTION +:+ nl
  +:+ nl
  +:+ "    **Customer Profile:**" +:+ nl
  +:+ "    ".

Definition prompt_products : string :=
  nl
  +:+ nl
  +:+ "    **Relevant Products (from our knowledge base):**" +:+ nl
  +:+ "    1. ".

Definition prompt_second : string := nl +:+ "    2. ".
Definition prompt_third : string := nl +:+ "    3. ".

Definition prompt_tail : string :=
  nl
  +:+ nl
  +:+ "    **Your Task:**" +:+ nl
  +:+ "    Based on all of this information, what is the single best product to recommend to this customer? " +:+ nl
  +:+ "    Provide a concise, one-paragraph justification explaining *why* it's the best fit, referencing the customer's profile." +:+ nl
  +:+ "    " +:+ nl
  +:+ "    **Recommendation:**" +:+ nl
  +:+ "    ".

Definition build_prompt (query_text doc0 doc1 doc2 : string) : string :=
  prompt_head +:+ query_text
  +:+ prompt_products +:+ doc0
  +:+ prompt_second +:+ doc1
  +:+ prompt_third +:+ doc2
  +:+ prompt_tail.

(** [customer_df.loc[customer_df['customer_id'] == customer_id]]: the
    rows of the table that carry the identifier, in table order. *)
Definition matching_rows (customer_df : list CustomerProfile) (cid : Z) : list CustomerProfile :=
  List.filter (fun row => Z.eqb (customer_id row) cid) customer_df.

Section WithServices.

(** The sentence-embedding model on one text; [model.encode] maps it over
    a batch. *)
Variable embed : string -> vector.

(** [index.search(query_vector, k)]: the row of distances and the row of
    labels for the single query. *)
Variable index_search : Index -> vector -> nat -> list Q * list Z.

(** [groq_client.chat.completions.create(...)] followed by
    [response.choices[0].message.content]. *)
Variable generate : Request -> result string.

Definition encode (texts : list string) : list vector := map embed texts.

(** [build_or_load_index] (source lines 24-52).  The returned model is the
    fixed [embed]; the outcome carries the index and the product texts,
    next to the file system the call leaves behind. *)
Definition build_or_load_index (fs : filesystem)
  : result (Index * list string) * filesystem :=
  if path_exists fs INDEX_PATH then
    (do index <- faiss_read_index fs INDEX_PATH;
     do corpus <- read_text fs PRODUCT_KB_PATH;
     Return (index, raw_segments KB_DELIMITER corpus),
     fs)
  else
    match
      (do corpus <- read_text fs PRODUCT_KB_PATH;
       let product_texts := stripped_segments KB_DELIMITER corpus in
       let embeddings := encode product_texts in
       do dim <- shape1 embeddings;
       do index <- add (IndexFlatL2 dim) embeddings;
       Return (index, product_texts))
    with
    | Return (index, product_texts) =>
        (Return (index, product_texts), faiss_write_index index INDEX_PATH fs)
    | Raise e => (Raise e, fs)
    end.

(** [get_recommendation] (source lines 70-121).  The outcome is paired
    with the requests dispatched to the generation service.  The [print]
    calls are kept only where evaluating their argument can raise
    ([doc.splitlines()[0]]). *)
Definition get_recommendation (cid : Z) (customer_df : list CustomerProfile)
    (index : Index) (product_texts : list string)
  : result string * list Request :=
  match matching_rows customer_df cid with
  | [] => (Return NOT_FOUND_MESSAGE, [])
  | customer_data :: _ =>
      let query_text := create_customer_query customer_data in
      let query_vector := embed query_text in
      let k := 3%nat in
      let '(distances, indices) := index_search index query_vector k in
      match
        (do retrieved_docs <- mapM (getitem product_texts) indices;
         do _ <- mapM first_line retrieved_docs;
         do doc0 <- getitem retrieved_docs 0;
         do doc1 <- getitem retrieved_docs 1;
         do doc2 <- getitem retrieved_docs 2;
         Return (build_prompt query_text doc0 doc1 doc2))
      with
      | Raise e => (Raise e, [])
      | Return prompt =>
          let request :=
            mkRequest "llama3-8b-8192" [mkMessage "user" prompt] (1 # 2) in
          (generate request, [request])
      end
  end.

End WithServices.

End Engine.

(* ===================================================================== *)
(** * Text files as they are stored                                       *)
(* ===================================================================== *)

Module Disk.
Import Py Engine.

(** The text file whose stored characters are [stored]: reading it in
    text mode gives [universal_newlines stored]. *)
Definition text_file (stored : string) : file :=
  TextFile (universal_newlines stored).

End Disk.

(* ===================================================================== *)
(** * Concrete services and files used by the closed examples             *)
(* ===================================================================== *)

Module Fixtures.
Import Py VectorIndex Engine.

(** A one-dimensional embedding: the length of the text. *)
Definition length_embed (text : string) : vector :=
  [inject_Z (Z.of_nat (String.length text))].

(** The index search of [VectorIndex] in the shape [index.search]
    returns: a row of distances and a row of labels. *)
Definition flat_search (idx : Index) (q : vector) (k : nat) : list Q * list Z :=
  let hits := search idx q k in
  (map snd hits, map (fun h : hit => Z.of_nat (fst h)) hits).

(** A generation service that answers every request with one text. *)
Definition constant_service (answer : string) (request : Request) : result string :=
  Return answer.

Definition sample_profile : CustomerProfile :=
  mkProfile 1 30 (60000 # 1) 700 (3 # 10) 1 "Checking Account" 20 "Employed".

(** The same customer with the two floats written as other fractions. *)
Definition sample_profile' : CustomerProfile :=
  mkProfile 1 30 (120000 # 2) 700 (30 # 100) 1 "Checking Account" 20 "Employed".

(** A knowledge base whose first segment is empty: the file starts with
    the delimiter line. *)
Definition leading_delimiter_corpus : string :=
  KB_DELIMITER +:+ nl +:+ "Gold Card" +:+ nl +:+ KB_DELIMITER +:+ nl +:+ "Home Loans" +:+ nl.

Definition fs_corpus_only : filesystem :=
  {[ PRODUCT_KB_PATH := TextFile leading_delimiter_corpus ]}.

(** Two consecutive start-ups on that knowledge base: the first finds no
    index file, the second finds the one the first has written. *)
Definition first_run : result (Index * list string) * filesystem :=
  build_or_load_index length_embed fs_corpus_only.

Definition second_run : result (Index * list string) * filesystem :=
  build_or_load_index length_embed (snd first_run).

(** The corpus of the specification's loader example, around a given
    delimiter: [A], the delimiter, then blank lines and [B]. *)
Definition spaced_corpus (delim : string) : string :=
  "A " +:+ delim +:+ " " +:+ nl +:+ " " +:+ nl +:+ " B".

Definition fs_spaced : filesystem :=
  {[ PRODUCT_KB_PATH := TextFile (spaced_corpus KB_DELIMITER) ]}.

(** A knowledge base with nothing but blanks around one delimiter line,
    alone and next to a persisted index. *)
Definition blank_corpus : string :=
  " " +:+ nl +:+ KB_DELIMITER +:+ nl.

Definition fs_blank : filesystem :=
  {[ PRODUCT_KB_PATH := TextFile blank_corpus ]}.

Definition three_products : list string :=
  ["Gold Card"; "Home Loans"; "Saver Plus"].

Definition three_index : Index :=
  mkIndex 1 [[9 # 1]; [4 # 1]; [10 # 1]]%Q.

(** An index file without the knowledge base next to it. *)
Definition fs_index_only : filesystem :=
  {[ INDEX_PATH := IndexFile (write_index three_index) ]}.

Definition fs_blank_with_index : filesystem :=
  <[ INDEX_PATH := IndexFile (write_index three_index) ]> fs_blank.

End Fixtures.

(* ===================================================================== *)
(** * The demonstration run of the engine                                 *)
(* ===================================================================== *)

Module Script.
Import Py VectorIndex Engine.

Section WithServices.

Variable embed : string -> vector.
Variable index_search : Index -> vector -> nat -> list Q * list Z.
Variable generate : Request -> result string.

(** [main] of [recommendation_engine.py] (source lines 123-143).  [csv] is
    the outcome of [pd.read_csv(PROCESSED_DATA_PATH)]: the table, or the
    exception the read raised; only [FileNotFoundError] is caught.  The
    outcome is the recommendation the run prints, if it gets that far,
    next to the files it leaves behind and the requests it dispatched. *)
Definition main (csv : result (list CustomerProfile)) (fs : filesystem)
  : result (option string) * filesystem * list Request :=
  match build_or_load_index embed fs with
  | (Raise e, fs') => (Raise e, fs', [])
  | (Return (index, product_texts), fs') =>
      match csv with
      | Raise (FileNotFoundError _) => (Return None, fs', [])
      | Raise e => (Raise e, fs', [])
      | Return customer_df =>
          match
            List.filter
              (fun row => String.eqb (employment_status row) "Self-Employed")
              customer_df
          with
          | [] => (Raise IndexError, fs', [])
          | row :: _ =>
              let sample_customer_id := customer_id row in
              let '(recommendation, requests) :=
                get_recommendation embed index_search generate
                  sample_customer_id customer_df index product_texts in
              (do text <- recommendation; Return (Some text), fs', requests)
          end
      end
  end.

End WithServices.

End Script.

(* ===================================================================== *)
(** * The synthetic data generator                                        *)
(* ===================================================================== *)

Module GenerateData.
Import Py.

Definition PRODUCT_LIST : list string :=
  ["Savings Account"; "Checking Account"; "Credit Card"; "Mortgage";
   "Personal Loan"; "Auto Loan"; "Investment Account"].

(** One row of [customer_data.csv]. *)
Record RawCustomer : Type := mkRaw {
  customer_id : Z;
  age : Z;
  income : Z;
  city : string;
  employment_status : string;
  credit_score : Z;
  existing_products : string;
  account_balance : Q;
  total_debt : Q;
  number_of_open_accounts : Z;
  payment_history : string;
  app_logins_per_month : Z;
  customer_service_calls : Z;
  website_visits_per_month : Z
}.

(** The values one iteration of the loop takes from its random sources
    ([random], [numpy.random] and [Faker]), in the order of the source. *)
Record Draws : Type := mkDraws {
  drawn_age : Z;
  drawn_income : Z;
  drawn_credit_score : Z;
  drawn_balance : Q;
  drawn_ratio : Q;
  drawn_products : list string;
  drawn_payment_history : string;
  drawn_city : string;
  drawn_employment_status : string;
  drawn_open_accounts : Z;
  drawn_app_logins : Z;
  drawn_service_calls : Z;
  drawn_website_visits : Z
}.

(** The ranges and choices the source passes to its random sources. *)
Definition in_range (r : Draws) : Prop :=
  18 <= drawn_age r <= 80
  /\ 25000 <= drawn_income r <= 250000
  /\ 300 <= drawn_credit_score r <= 850
  /\ (500 # 1 <= drawn_balance r)%Q /\ (drawn_balance r <= 150000 # 1)%Q
  /\ (1 # 10 <= drawn_ratio r)%Q /\ (drawn_ratio r <= 15 # 10)%Q
  /\ (1 <= List.length (drawn_products r) <= 4)%nat
  /\ NoDup (drawn_products r)
  /\ Forall (fun name => In name PRODUCT_LIST) (drawn_products r)
  /\ In (drawn_payment_history r) ["On-time"; "Late"; "Mixed"]
  /\ In (drawn_employment_status r) ["Employed"; "Self-Employed"; "Unemployed"; "Student"]
  /\ 1 <= drawn_open_accounts r <= 15
  /\ 0 <= drawn_app_logins r <= 50
  /\ 0 <= drawn_service_calls r <= 10
  /\ 0 <= drawn_website_visits r <= 30.

(** [round(x, ndigits)] on a float: the nearest multiple of
    [10^-ndigits], ties to even.  The argument is taken as an exact number:
    Python rounds the double nearest to it and returns a double, so the
    two can differ in the last place; no property below depends on the
    value. *)
Definition round_to (ndigits : nat) (x : Q) : Q :=
  let scale := inject_Z (10 ^ Z.of_nat ndigits) in
  let m := (inject_Z (round_half_even (Qabs x * scale)) / scale)%Q in
  if Z.ltb (Qnum x) 0 then (- m)%Q else m.

(** The record the loop body assembles in iteration [i] (source lines
    35-73). *)
Definition customer_record (i : nat) (r : Draws) : RawCustomer :=
  mkRaw (Z.of_nat i + 1)
        (drawn_age r)
        (drawn_income r)
        (drawn_city r)
        (drawn_employment_status r)
        (drawn_credit_score r)
        (String.concat "," (drawn_products r))
        (round_to 2 (drawn_balance r))
        (round_to 2 (inject_Z (drawn_income r) * drawn_ratio r)%Q)
        (drawn_open_accounts r)
        (drawn_payment_history r)
        (drawn_app_logins r)
        (drawn_service_calls r)
        (drawn_website_visits r).

(** [generate_customer_data] (source lines 16-84); [draw i] is what
    iteration [i] draws. *)
Definition generate_customer_data (draw : nat -> Draws) (num_customers : nat)
  : list RawCustomer :=
  map (fun i => customer_record i (draw i)) (seq 0 num_customers).

End GenerateData.

(* ===================================================================== *)
(** * The feature-engineering pipeline                                    *)
(* ===================================================================== *)

Module ProcessData.
Import Py.

(** SQL [REPLACE(X, Y, Z)]: every occurrence of the non-empty [Y] in [X],
    left to right, becomes [Z]; an empty [Y] leaves [X] as it is. *)
Definition sql_replace (x y z : string) : string :=
  if is_empty y then x else String.concat z (split y x).

(** A row of the query's result: the columns of [customers] ([SELECT *])
    and the three derived columns.  A division by zero is SQL [NULL]. *)
Record ProcessedCustomer : Type := mkProcessed {
  raw : GenerateData.RawCustomer;
  debt_to_income_ratio : option Q;
  engagement_score : Z;
  product_count : Z
}.

(** The [SELECT] list of the query (source lines 34-52) on one row.  The
    quotient is the exact one, where SQLite gives the nearest double, and
    the sum is an unbounded integer, where SQLite turns to [REAL] beyond 64
    bits; the properties below use neither the value of the quotient nor
    sums of that size. *)
Definition select_row (c : GenerateData.RawCustomer) : ProcessedCustomer :=
  mkProcessed c
    (if Z.eqb (GenerateData.income c) 0 then None
     else Some (GenerateData.total_debt c / inject_Z (GenerateData.income c))%Q)
    (GenerateData.app_logins_per_month c + GenerateData.website_visits_per_month c)
    (Z.of_nat (String.length (GenerateData.existing_products c))
     - Z.of_nat (String.length (sql_replace (GenerateData.existing_products c) "," ""))
     + 1).

(** [data_processing_pipeline] (source lines 9-59): the table goes into an
    in-memory database and the query runs over it, row by row. *)
Definition data_processing_pipeline (raw_df : list GenerateData.RawCustomer)
  : list ProcessedCustomer :=
  map select_row raw_df.

(** The row the engine sees after [processed_customer_data.csv] is read
    back: the columns [create_customer_query] and the lookup use.  A
    [NULL] ratio comes back as a not-a-number, which is outside the
    numbers of this development. *)
Definition to_profile (p : ProcessedCustomer) : option Engine.CustomerProfile :=
  match debt_to_income_ratio p with
  | None => None
  | Some ratio =>
      Some (Engine.mkProfile
              (GenerateData.customer_id (raw p))
              (GenerateData.age (raw p))
              (inject_Z (GenerateData.income (raw p)))
              (GenerateData.credit_score (raw p))
              ratio
              (product_count p)
              (GenerateData.existing_products (raw p))
              (engagement_score p)
              (GenerateData.employment_status (raw p)))
  end.

Fixpoint read_profiles (rows : list ProcessedCustomer) : option (list Engine.CustomerProfile) :=
  match rows with
  | [] => Some []
  | p :: rows' =>
      match to_profile p, read_profiles rows' with
      | Some profile, Some profiles => Some (profile :: profiles)
      | _, _ => None
      end
  end.

End ProcessData.

(* ===================================================================== *)
(** * The web front end                                                   *)
(* ===================================================================== *)

Module App.
Import Py VectorIndex Engine.

(** What the button handler renders: the report (customer snapshot and
    the markup of the recommendation) or the error box. *)
Inductive page : Type :=
| Report (customer_data : list CustomerProfile) (markup : string)
| ErrorBox (message : string).

Definition dq : string := String (ascii_of_nat 34) EmptyString.

(** The markup handed to [st.markdown] (source line 83). *)
Definition word_wrap (recommendation_text : string) : string :=
  "<div class=" +:+ dq +:+ "word-wrap-text" +:+ dq +:+ ">"
  +:+ recommendation_text +:+ "</div>".

Section WithServices.

Variable embed : string -> vector.
Variable index_search : Index -> vector -> nat -> list Q * list Z.
Variable generate : Request -> result string.

(** [load_resources] (source lines 26-35): the table is read first, then
    the index is built or loaded. *)
Definition load_resources (csv : result (list CustomerProfile)) (fs : filesystem)
  : result (list CustomerProfile * Index * list string) * filesystem :=
  match csv with
  | Raise e => (Raise e, fs)
  | Return customer_df =>
      match build_or_load_index embed fs with
      | (Return (index, product_texts), fs') =>
          (Return (customer_df, index, product_texts), fs')
      | (Raise e, fs') => (Raise e, fs')
      end
  end.

(** The body of the button handler (source lines 63-85) on the number the
    input widget holds. *)
Definition on_generate (customer_id_input : Z) (customer_df : list CustomerProfile)
    (index : Index) (product_texts : list string)
  : result page * list Request :=
  if negb (Z.eqb customer_id_input 0) then
    let cid := customer_id_input in
    let customer_data := matching_rows customer_df cid in
    let '(recommendation_text, requests) :=
      get_recommendation embed index_search generate cid customer_df index product_texts in
    (do text <- recommendation_text; Return (Report customer_data (word_wrap text)),
     requests)
  else
    (Return (ErrorBox "Please enter a valid Customer ID."), []).

End WithServices.

End App.

(* ===================================================================== *)
(** * Scenarios for the scripts and the front end                         *)
(* ===================================================================== *)

Module Scenarios.
Import Py VectorIndex Engine.

(** A knowledge base of three products and the start-up on it. *)
Definition three_products_corpus : string :=
  "Gold Card" +:+ nl +:+ KB_DELIMITER +:+ nl
  +:+ "Home Loans" +:+ nl +:+ KB_DELIMITER +:+ nl
  +:+ "Saver Plus" +:+ nl.

Definition fs_three_products : filesystem :=
  {[ PRODUCT_KB_PATH := TextFile three_products_corpus ]}.

(** The same kind of knowledge base stored with CR LF line ends, next to
    a persisted index. *)
Definition crlf_corpus : string :=
  "Gold Card" +:+ String CR nl +:+ KB_DELIMITER +:+ String CR nl
  +:+ "Home Loans" +:+ String CR nl.

Definition fs_crlf_with_index : filesystem :=
  {[ PRODUCT_KB_PATH := Disk.text_file crlf_corpus;
     INDEX_PATH := IndexFile (write_index (mkIndex 1 [[9 # 1]; [10 # 1]]%Q)) ]}.

(** An index of two vectors and its two documents. *)
Definition two_index : Index := mkIndex 1 [[9 # 1]; [10 # 1]]%Q.

Definition two_products : list string := ["Gold Card"; "Home Loans"].

(** The three segments the load-existing path returns for the knowledge
    base that starts with the delimiter line. *)
Definition reloaded_segments : list string :=
  [EmptyString; nl +:+ "Gold Card" +:+ nl; nl +:+ "Home Loans" +:+ nl].

(** A search that always answers with [k] labels: the hits of
    [Fixtures.flat_search], then the label [-1] with a large distance for
    every missing hit. *)
Definition padded_search (idx : Index) (q : vector) (k : nat) : list Q * list Z :=
  let '(distances, labels) := Fixtures.flat_search idx q k in
  let missing := (k - List.length labels)%nat in
  (distances ++ replicate missing (inject_Z (2 ^ 127)), labels ++ replicate missing (-1)).

Definition self_employed_profile : CustomerProfile :=
  mkProfile 2 41 (85000 # 1) 640 (9 # 10) 2 "Savings Account,Credit Card" 35 "Self-Employed".

Definition small_table : list CustomerProfile :=
  [Fixtures.sample_profile; self_employed_profile].

(** One iteration's draws, the same for every customer. *)
Definition fixed_draws (i : nat) : GenerateData.Draws :=
  GenerateData.mkDraws 30 60000 700 (1200 # 1) (3 # 10)
    ["Savings Account"; "Credit Card"] "On-time" "Springfield" "Employed" 3 12 8 2.

End Scenarios.

(* ===================================================================== *)
(** * Vocabulary of the properties                                        *)
(* ===================================================================== *)

Import Py VectorIndex Engine.

(** [a] comes strictly before [b]: closer, or equally close and stored
    earlier. *)
Definition hit_lt (a b : hit) : Prop :=
  (snd a < snd b)%Q \/ ((snd a == snd b)%Q /\ (fst a < fst b)%nat).

(** [h] reports a stored position together with the squared Euclidean
    distance from the query to the vector stored there. *)
Definition hit_of (idx : Index) (q : vector) (h : hit) : Prop :=
  exists v, xb idx !! fst h = Some v /\ snd h = sq_l2 q v.

(** A string is trimmed when neither end can be stripped further. *)
Definition trimmed (s : string) : Prop := lstrip s = s /\ rstrip s = s.

(** An outcome that is an exception of the given class. *)
Definition fails_with {A : Type} (class : string) (r : result A) : Prop :=
  exists e, r = Raise e /\ exn_name e = class.

(** The identifier is carried by no row of the table. *)
Definition absent (cid : Z) (customer_df : list CustomerProfile) : Prop :=
  Forall (fun row => customer_id row <> cid) customer_df.

(** The parts occur in the text one after the other, without overlap. *)
Fixpoint occur_in_order (parts : list string) (text : string) : Prop :=
  match parts with
  | [] => True
  | part :: parts' =>
      exists before after,
        text = before +:+ part +:+ after /\ occur_in_order parts' after
  end.

Definition is_digit (c : ascii) : bool :=
  let n := nat_of_ascii c in ((48 <=? n) && (n <=? 57))%nat.

Fixpoint all_digits (s : string) : bool :=
  match s with
  | EmptyString => true
  | String c s' => is_digit c && all_digits s'
  end.

(** Two records of the same customer: equal fields, the two floats equal
    as numbers. *)
Definition same_profile (p1 p2 : CustomerProfile) : Prop :=
  customer_id p1 = customer_id p2
  /\ age p1 = age p2
  /\ (income p1 == income p2)%Q
  /\ credit_score p1 = credit_score p2
  /\ (debt_to_income_ratio p1 == debt_to_income_ratio p2)%Q
  /\ product_count p1 = product_count p2
  /\ existing_products p1 = existing_products p2
  /\ engagement_score p1 = engagement_score p2
  /\ employment_status p1 = employment_status p2.

(** [s] renders [q] as a whole amount: a sign and the digits of the
    integer nearest to the magnitude of [q]. *)
Definition whole_amount (q : Q) (s : string) : Prop :=
  exists n : Z,
    0 <= n
    /\ (Qabs (inject_Z n - Qabs q) <= 1 # 2)%Q
    /\ s = sign_of q +:+ str_int n
    /\ all_digits (str_int n) = true.

(** [s] renders [q] to two decimal places: a sign, the digits of the
    whole part, a point and exactly two digits, together the number of
    hundredths nearest to the magnitude of [q]. *)
Definition two_decimals (q : Q) (s : string) : Prop :=
  exists n : Z,
    0 <= n
    /\ (Qabs (inject_Z n - Qabs q * inject_Z 100) <= 1 # 2)%Q
    /\ s = sign_of q +:+ str_int (n / 100) +:+ "."
            +:+ String (digit (n / 10)) (String (digit n) EmptyString)
    /\ all_digits (str_int (n / 100)) = true
    /\ is_digit (digit (n / 10)) = true
    /\ is_digit (digit n) = true.

(** The retrieval block of [get_recommendation] (source lines 87-109),
    from the labels of the search to the prompt. *)
Definition assemble (product_texts : list string) (indices : list Z)
    (query_text : string) : result string :=
  do retrieved_docs <- mapM (getitem product_texts) indices;
  do _ <- mapM first_line retrieved_docs;
  do doc0 <- getitem retrieved_docs 0;
  do doc1 <- getitem retrieved_docs 1;
  do doc2 <- getitem retrieved_docs 2;
  Return (build_prompt query_text doc0 doc1 doc2).

(** The number of occurrences of a character. *)
Fixpoint count_char (c : ascii) (s : string) : nat :=
  match s with
  | EmptyString => O
  | String a s' => if Ascii.eqb a c then S (count_char c s') else count_char c s'
  end.

Definition comma : ascii := ascii_of_nat 44.

(* ===================================================================== *)
(** * Properties                                                          *)
(* ===================================================================== *)

(** ** Ordering of search results *)

Lemma hit_lt_trans a b c : hit_lt a b -> hit_lt b c -> hit_lt a c.
Proof.
  unfold hit_lt. intros [Hab | [Hab Pab]] [Hbc | [Hbc Pbc]].
  - left. eapply Qlt_trans; eassumption.
  - left. rewrite <- Hbc. exact Hab.
  - left. rewrite Hab. exact Hbc.
  - right. split; [rewrite Hab; exact Hbc | lia].
Qed.

Lemma insert_hit_Forall (P : hit -> Prop) h l :
  P h -> Forall P l -> Forall P (insert_hit h l).
Proof.
  intros Hh Hl. induction Hl as [| h' l' Hh' Hl' IH]; simpl.
  - constructor; [exact Hh | constructor].
  - destruct (Qle_bool (snd h) (snd h')).
    + constructor; [exact Hh | constructor; assumption].
    + constructor; assumption.
Qed.

Lemma insert_hit_length h l : List.length (insert_hit h l) = S (List.length l).
Proof.
  induction l as [| h' l' IH]; simpl; [reflexivity |].
  destruct (Qle_bool (snd h) (snd h')); simpl; [reflexivity | now rewrite IH].
Qed.

Lemma insert_hit_sorted h l :
  StronglySorted hit_lt l ->
  Forall (fun h' => (fst h < fst h')%nat) l ->
  StronglySorted hit_lt (insert_hit h l).
Proof.
  intros Hs. induction Hs as [| h' l' Hs' IH Hall]; intros Hpos; simpl.
  - constructor; constructor.
  - inversion Hpos as [| ? ? Hp Hpos']; subst.
    destruct (Qle_bool (snd h) (snd h')) eqn:Hle.
    + apply Qle_bool_iff in Hle.
      assert (Hfirst : hit_lt h h').
      { destruct (Qle_lt_or_eq _ _ Hle) as [Hlt | Heq];
          [left; exact Hlt | right; split; [exact Heq | exact Hp]]. }
      constructor.
      * constructor; assumption.
      * constructor; [exact Hfirst |].
        eapply List.Forall_impl; [| exact Hall].
        intros x Hx. eapply hit_lt_trans; eassumption.
    + assert (Hgt : (snd h' < snd h)%Q).
      { apply Qnot_le_lt. intros Hc. apply Qle_bool_iff in Hc. congruence. }
      constructor.
      * apply IH. exact Hpos'.
      * apply insert_hit_Forall; [left; exact Hgt | exact Hall].
Qed.

Lemma sort_hits_Forall (P : hit -> Prop) l : Forall P l -> Forall P (sort_hits l).
Proof.
  induction 1 as [| h l Hh Hl IH]; simpl; [constructor |].
  apply insert_hit_Forall; assumption.
Qed.

Lemma sort_hits_length l : List.length (sort_hits l) = List.length l.
Proof.
  induction l as [| h l IH]; simpl; [reflexivity |].
  now rewrite insert_hit_length, IH.
Qed.

Lemma score_from_length pos q rows :
  List.length (score_from pos q rows) = List.length rows.
Proof.
  revert pos. induction rows as [| v rows IH]; intros pos; simpl; [reflexivity |].
  now rewrite IH.
Qed.

Lemma score_from_positions pos q rows :
  Forall (fun h : hit => (pos <= fst h)%nat) (score_from pos q rows).
Proof.
  revert pos. induction rows as [| v rows IH]; intros pos; simpl; constructor.
  - simpl. lia.
  - eapply List.Forall_impl; [| apply (IH (S pos))]. intros h Hh. simpl in Hh. lia.
Qed.

Lemma score_from_hits pos q rows :
  Forall (fun h : hit =>
            exists v, rows !! (fst h - pos)%nat = Some v /\ (pos <= fst h)%nat
                      /\ snd h = sq_l2 q v)
         (score_from pos q rows).
Proof.
  revert pos. induction rows as [| v rows IH]; intros pos; simpl; constructor.
  - exists v. simpl. rewrite Nat.sub_diag. auto.
  - eapply List.Forall_impl; [| apply (IH (S pos))].
    intros h (w & Hw & Hle & Hd). exists w. repeat split; [| lia | exact Hd].
    replace (fst h - pos)%nat with (S (fst h - S pos)) by lia. exact Hw.
Qed.

Lemma sort_scored_sorted pos q rows :
  StronglySorted hit_lt (sort_hits (score_from pos q rows)).
Proof.
  revert pos. induction rows as [| v rows IH]; intros pos; simpl.
  - constructor.
  - apply insert_hit_sorted; [apply IH |].
    apply sort_hits_Forall.
    eapply List.Forall_impl; [| apply (score_from_positions (S pos))].
    intros h Hh. simpl in *. lia.
Qed.

Lemma take_sorted (R : hit -> hit -> Prop) k l :
  StronglySorted R l -> StronglySorted R (take k l).
Proof.
  intros Hs. revert k. induction Hs as [| h l Hs IH Hall]; intros [| k]; simpl;
    try constructor.
  - apply IH.
  - apply Forall_take. exact Hall.
Qed.

(** C1. For every index, query vector and [k], [search] returns hits in
    strictly ascending order of (squared Euclidean distance, position);
    each hit names a stored position with the distance of the vector
    stored there; the number of hits is the smaller of [k] and the stored
    count, so a [k] beyond the stored count yields exactly the stored
    count and no failure. *)
Theorem search_sorted_and_clamped :
  forall (idx : Index) (q : vector) (k extra : nat),
    StronglySorted hit_lt (search idx q k)
    /\ Forall (hit_of idx q) (search idx q k)
    /\ List.length (search idx q k) = Nat.min k (ntotal idx)
    /\ List.length (search idx q (ntotal idx + S extra)) = ntotal idx.
Proof.
  intros idx q k extra. unfold search, ntotal.
  assert (Hlen : forall n, List.length (take n (sort_hits (score_from 0 q (xb idx))))
                           = Nat.min n (List.length (xb idx))).
  { intros n. now rewrite length_take, sort_hits_length, score_from_length. }
  repeat split.
  - apply take_sorted, sort_scored_sorted.
  - apply Forall_take, sort_hits_Forall.
    eapply List.Forall_impl; [| apply (score_from_hits 0)].
    intros h (v & Hv & _ & Hd). exists v. rewrite Nat.sub_0_r in Hv. auto.
  - apply Hlen.
  - rewrite Hlen. lia.
Qed.

(** ** The knowledge-base loader *)

Lemma map_filter_comm {A B : Type} (f : A -> B) (p : B -> bool) (l : list A) :
  map f (List.filter (fun a => p (f a)) l) = List.filter p (map f l).
Proof.
  induction l as [| a l IH]; simpl; [reflexivity |].
  destruct (p (f a)); simpl; now rewrite IH.
Qed.

(** The comprehension of the fresh-build path is the loader of the
    specification: trim, then drop what is empty. *)
Lemma stripped_segments_spec delim corpus :
  stripped_segments delim corpus = documents_spec delim corpus.
Proof.
  unfold stripped_segments, documents_spec.
  apply (map_filter_comm strip (fun doc => negb (is_empty doc))).
Qed.

Lemma lstrip_head s :
  lstrip s = EmptyString \/ exists c s', lstrip s = String c s' /\ is_space c = false.
Proof.
  induction s as [| c s IH]; simpl; [now left |].
  destruct (is_space c) eqn:Hc; [exact IH | right; eauto].
Qed.

Lemma rstrip_idem s : rstrip (rstrip s) = rstrip s.
Proof.
  induction s as [| c s IH]; simpl; [reflexivity |].
  destruct (is_empty (rstrip s) && is_space c) eqn:Hc; simpl; [reflexivity |].
  now rewrite IH, Hc.
Qed.

Lemma rstrip_keeps_head c s :
  is_space c = false -> rstrip (String c s) = String c (rstrip s).
Proof. intros Hc. simpl. rewrite Hc. now rewrite andb_false_r. Qed.

Lemma strip_trimmed s : trimmed (strip s).
Proof.
  unfold trimmed, strip. split; [| apply rstrip_idem].
  destruct (lstrip_head s) as [-> | (c & s' & -> & Hc)]; [reflexivity |].
  rewrite (rstrip_keeps_head c s' Hc). simpl. now rewrite Hc.
Qed.

(** On the fresh-build path every document is trimmed and non-empty. *)
Lemma stripped_segments_clean delim corpus :
  Forall (fun doc => trimmed doc /\ doc <> EmptyString) (stripped_segments delim corpus).
Proof.
  rewrite stripped_segments_spec. unfold documents_spec.
  induction (split delim corpus) as [| seg segs IH]; simpl; [constructor |].
  destruct (strip seg) eqn:Hs; simpl; [exact IH |].
  constructor; [| exact IH].
  split; [rewrite <- Hs; apply strip_trimmed | discriminate].
Qed.

(** ** Index construction and persistence *)

Lemma add_to_empty dim rows idx :
  add (IndexFlatL2 dim) rows = Return idx ->
  idx = mkIndex dim rows /\ well_formed idx.
Proof.
  unfold add, IndexFlatL2. simpl.
  match goal with
  | |- context [forallb ?f rows] => destruct (forallb f rows) eqn:Hall
  end; [| discriminate].
  intros [= <-]. split; [reflexivity |].
  unfold well_formed. simpl. apply List.Forall_forall. intros v Hv.
  rewrite forallb_forall in Hall. apply Nat.eqb_eq, Hall, Hv.
Qed.

Lemma add_uniform dim rows :
  Forall (fun v => List.length v = dim) rows ->
  add (IndexFlatL2 dim) rows = Return (mkIndex dim rows).
Proof.
  intros Hall. unfold add, IndexFlatL2. simpl.
  match goal with
  | |- context [forallb ?f rows] => replace (forallb f rows) with true
  end; [reflexivity |].
  symmetry. apply forallb_forall. intros v Hv. apply Nat.eqb_eq.
  rewrite List.Forall_forall in Hall. auto.
Qed.

Lemma header_field_nat n : header_field (inject_Z (Z.of_nat n)) = Some n.
Proof.
  unfold header_field, inject_Z. simpl.
  replace (0 <=? Z.of_nat n) with true by (symmetry; apply Z.leb_le; lia).
  simpl. now rewrite Nat2Z.id.
Qed.

Lemma chunk_concat dim rows :
  Forall (fun v => List.length v = dim) rows ->
  chunk dim (List.length rows) (concat rows) = rows
  /\ List.length (concat rows) = (dim * List.length rows)%nat.
Proof.
  induction 1 as [| v rows Hv Hrows [IHc IHl]]; simpl.
  - split; [reflexivity | lia].
  - rewrite take_app_length' by (symmetry; exact Hv).
    rewrite drop_app_length' by (symmetry; exact Hv).
    rewrite IHc, length_app, IHl, Hv. split; [reflexivity | lia].
Qed.

(** Reading back what [write_index] wrote gives the index itself. *)
Lemma read_write_index idx :
  well_formed idx -> read_index (write_index idx) = Some idx.
Proof.
  destruct idx as [dim rows]. unfold well_formed, write_index, read_index, ntotal.
  simpl. intros Hwf.
  rewrite !header_field_nat.
  destruct (chunk_concat dim rows Hwf) as [Hc Hl].
  rewrite Hl, Nat.eqb_refl. do 2 f_equal. exact Hc.
Qed.

Lemma paths_differ : INDEX_PATH <> PRODUCT_KB_PATH.
Proof. discriminate. Qed.

(** What a successful call on the fresh-build path has done. *)
Lemma fresh_build_inv embed (fs fs' : filesystem) idx texts :
  fs !! INDEX_PATH = None ->
  build_or_load_index embed fs = (Return (idx, texts), fs') ->
  exists corpus,
    fs !! PRODUCT_KB_PATH = Some (TextFile corpus)
    /\ texts = stripped_segments KB_DELIMITER corpus
    /\ xb idx = encode embed texts
    /\ well_formed idx
    /\ fs' = faiss_write_index idx INDEX_PATH fs.
Proof.
  intros Hno. unfold build_or_load_index, path_exists, read_text. rewrite Hno.
  destruct (fs !! PRODUCT_KB_PATH) as [[corpus | blob] |] eqn:Hkb; simpl;
    try (intros [= ? ?]; discriminate).
  destruct (shape1 _) as [dim | e] eqn:Hshape; simpl;
    [| intros [= ? ?]; discriminate].
  destruct (add _ _) as [built | e] eqn:Hadd; simpl;
    [| intros [= ? ?]; discriminate].
  intros [= -> <- <-].
  apply add_to_empty in Hadd as [-> Hwf].
  exists corpus. repeat split; assumption.
Qed.

(** What a successful call on the load-existing path has done. *)
Lemma load_existing_eq embed (fs : filesystem) idx corpus :
  faiss_read_index fs INDEX_PATH = Return idx ->
  fs !! PRODUCT_KB_PATH = Some (TextFile corpus) ->
  build_or_load_index embed fs = (Return (idx, raw_segments KB_DELIMITER corpus), fs).
Proof.
  intros Hidx Hkb. unfold build_or_load_index, path_exists.
  unfold faiss_read_index in Hidx.
  destruct (fs !! INDEX_PATH) as [f |] eqn:Hf; [| discriminate].
  unfold faiss_read_index, read_text. rewrite Hf, Hkb.
  destruct f as [c | blob]; [discriminate |].
  destruct (read_index blob); [| discriminate].
  injection Hidx as ->. reflexivity.
Qed.

(** C3. Every index that [build_or_load_index] builds is persisted and
    loaded back unchanged: the fresh build leaves the blob of the returned
    index at the index path; that blob parses to the index; the next
    start-up reads its index from that file and returns it; and so does
    any start-up that finds this blob at the index path, whatever the
    corpus next to it and whatever the embedding model.  On the reloaded
    index [search] gives the same positions and distances for every query
    and every [k]. *)
Theorem persist_load_same_search :
  forall (embed : string -> vector) (fs fs' : filesystem)
         (idx : Index) (texts : list string),
    fs !! INDEX_PATH = None ->
    build_or_load_index embed fs = (Return (idx, texts), fs') ->
    fs' !! INDEX_PATH = Some (IndexFile (write_index idx))
    /\ read_index (write_index idx) = Some idx
    /\ (exists idx' texts',
          faiss_read_index fs' INDEX_PATH = Return idx'
          /\ build_or_load_index embed fs' = (Return (idx', texts'), fs')
          /\ forall (q : vector) (k : nat), search idx' q k = search idx q k)
    /\ (forall (embed2 : string -> vector) (fs2 : filesystem) (corpus2 : string),
          fs2 !! INDEX_PATH = fs' !! INDEX_PATH ->
          fs2 !! PRODUCT_KB_PATH = Some (TextFile corpus2) ->
          exists idx' texts',
            faiss_read_index fs2 INDEX_PATH = Return idx'
            /\ build_or_load_index embed2 fs2 = (Return (idx', texts'), fs2)
            /\ forall (q : vector) (k : nat), search idx' q k = search idx q k).
Proof.
  intros embed fs fs' idx texts Hno Hbuild.
  destruct (fresh_build_inv embed fs fs' idx texts Hno Hbuild)
    as (corpus & Hkb & _ & _ & Hwf & ->).
  pose proof (read_write_index idx Hwf) as Hrt.
  assert (Hblob : faiss_write_index idx INDEX_PATH fs !! INDEX_PATH
                  = Some (IndexFile (write_index idx))).
  { unfold faiss_write_index. apply lookup_insert_eq. }
  assert (Hload : forall (embed2 : string -> vector) (fs2 : filesystem) (corpus2 : string),
             fs2 !! INDEX_PATH = faiss_write_index idx INDEX_PATH fs !! INDEX_PATH ->
             fs2 !! PRODUCT_KB_PATH = Some (TextFile corpus2) ->
             exists idx' texts',
               faiss_read_index fs2 INDEX_PATH = Return idx'
               /\ build_or_load_index embed2 fs2 = (Return (idx', texts'), fs2)
               /\ forall (q : vector) (k : nat), search idx' q k = search idx q k).
  { intros embed2 fs2 corpus2 Hsame Hkb2. rewrite Hblob in Hsame.
    assert (Hread : faiss_read_index fs2 INDEX_PATH = Return idx).
    { unfold faiss_read_index. rewrite Hsame, Hrt. reflexivity. }
    exists idx, (raw_segments KB_DELIMITER corpus2).
    split; [exact Hread |]. split; [| reflexivity].
    now apply load_existing_eq. }
  split; [exact Hblob |]. split; [exact Hrt |]. split; [| exact Hload].
  apply (Hload embed _ corpus); [reflexivity |].
  unfold faiss_write_index.
  rewrite lookup_insert_ne by exact paths_differ. exact Hkb.
Qed.

(** Witness of [persist_load_same_search]: the start-up on a knowledge
    base without an index file, followed by a second start-up. *)
Lemma persist_load_same_search_witness :
  Fixtures.fs_corpus_only !! INDEX_PATH = None
  /\ snd Fixtures.first_run !! INDEX_PATH
     = Some (IndexFile (write_index (mkIndex 1 [[9 # 1]; [10 # 1]]%Q)))
  /\ read_index (write_index (mkIndex 1 [[9 # 1]; [10 # 1]]%Q))
     = Some (mkIndex 1 [[9 # 1]; [10 # 1]]%Q)
  /\ exists idx' texts',
       faiss_read_index (snd Fixtures.first_run) INDEX_PATH = Return idx'
       /\ build_or_load_index Fixtures.length_embed (snd Fixtures.first_run)
          = (Return (idx', texts'), snd Fixtures.first_run)
       /\ forall (q : vector) (k : nat),
            search idx' q k = search (mkIndex 1 [[9 # 1]; [10 # 1]]%Q) q k.
Proof.
  split; [vm_compute; reflexivity |].
  destruct (persist_load_same_search Fixtures.length_embed Fixtures.fs_corpus_only
              (snd Fixtures.first_run) (mkIndex 1 [[9 # 1]; [10 # 1]]%Q)
              ["Gold Card"; "Home Loans"]) as (Hblob & Hparse & Hnext & _).
  - vm_compute; reflexivity.
  - vm_compute; reflexivity.
  - split; [exact Hblob |]. split; [exact Hparse | exact Hnext].
Defined.

(** C2. The load-existing path returns the raw segments.  On the corpus of
    the loader example the specification's loader gives the two documents
    [A] and [B], and so does the fresh-build path; the start-up that then
    finds the persisted index returns the same file as two untrimmed
    segments. *)
Theorem load_path_returns_untrimmed_segments :
  documents_spec "---" (Fixtures.spaced_corpus "---") = ["A"; "B"]
  /\ stripped_segments "---" (Fixtures.spaced_corpus "---") = ["A"; "B"]
  /\ exists idx fs',
       build_or_load_index Fixtures.length_embed Fixtures.fs_spaced
       = (Return (idx, ["A"; "B"]), fs')
       /\ fst (build_or_load_index Fixtures.length_embed fs')
          = Return (idx, ["A "; " " +:+ nl +:+ " " +:+ nl +:+ " B"]).
Proof.
  split; [vm_compute; reflexivity |].
  split; [vm_compute; reflexivity |].
  exists (mkIndex 1 [[1 # 1]; [1 # 1]]%Q),
         (faiss_write_index (mkIndex 1 [[1 # 1]; [1 # 1]]%Q) INDEX_PATH Fixtures.fs_spaced).
  split; vm_compute; reflexivity.
Qed.

(** C4. After a restart the index and the document list can disagree.  On
    a knowledge base that starts with the delimiter line, the first
    start-up returns two vectors for two documents; the second start-up
    returns the same two vectors next to three segments, and position 0 of
    the index, the embedding of the first product, faces the empty
    segment. *)
Theorem reload_breaks_positional_invariant :
  (exists idx texts,
     fst Fixtures.first_run = Return (idx, texts)
     /\ ntotal idx = 2%nat /\ List.length texts = 2%nat
     /\ xb idx = encode Fixtures.length_embed texts)
  /\ exists idx texts,
       fst Fixtures.second_run = Return (idx, texts)
       /\ ntotal idx = 2%nat /\ List.length texts = 3%nat
       /\ xb idx !! 0%nat = Some (Fixtures.length_embed "Gold Card")
       /\ texts !! 0%nat = Some EmptyString.
Proof.
  split.
  - exists (mkIndex 1 [[9 # 1]; [10 # 1]]%Q), ["Gold Card"; "Home Loans"].
    repeat split; vm_compute; reflexivity.
  - exists (mkIndex 1 [[9 # 1]; [10 # 1]]%Q),
           [EmptyString; nl +:+ "Gold Card" +:+ nl; nl +:+ "Home Loans" +:+ nl].
    repeat split; vm_compute; reflexivity.
Qed.

(** ** The orchestrator *)

Lemma matching_rows_absent cid customer_df :
  absent cid customer_df -> matching_rows customer_df cid = [].
Proof.
  unfold absent, matching_rows. induction 1 as [| row rows Hrow Hrows IH]; simpl.
  - reflexivity.
  - destruct (Z.eqb_spec (customer_id row) cid); [contradiction | exact IH].
Qed.

Lemma getitem_nat {A : Type} (l : list A) (i : nat) (a : A) :
  l !! i = Some a -> getitem l (Z.of_nat i) = Return a.
Proof.
  intros Hi. pose proof (lookup_lt_Some _ _ _ Hi) as Hlt. unfold getitem.
  replace ((0 <=? Z.of_nat i) && (Z.of_nat i <? Z.of_nat (List.length l))) with true.
  - now rewrite Nat2Z.id, Hi.
  - symmetry. apply andb_true_iff. split; [apply Z.leb_le | apply Z.ltb_lt]; lia.
Qed.

Lemma first_lines_exist docs :
  Forall (fun doc => doc <> EmptyString) docs ->
  exists lines, mapM first_line docs = Return lines.
Proof.
  induction 1 as [| doc docs Hdoc Hdocs [lines IH]]; simpl.
  - eauto.
  - unfold first_line at 1. destruct doc; [contradiction |]. simpl.
    rewrite IH. simpl. eauto.
Qed.

(** Whatever the inputs, a request that was dispatched is the only one,
    and its answer is what the caller receives. *)
Lemma dispatched_answer embed index_search generate cid customer_df idx texts request :
  In request (snd (get_recommendation embed index_search generate cid customer_df idx texts)) ->
  get_recommendation embed index_search generate cid customer_df idx texts
  = (generate request, [request]).
Proof.
  unfold get_recommendation.
  destruct (matching_rows customer_df cid) as [| customer_data others]; simpl;
    [contradiction |].
  destruct (index_search idx _ 3%nat) as [distances labels].
  match goal with
  | |- context [match ?r with Return _ => _ | Raise _ => _ end] => destruct r
  end; simpl; [| contradiction].
  intros [<- | []]. reflexivity.
Qed.

Lemma get_recommendation_absent embed index_search generate cid customer_df idx texts :
  absent cid customer_df ->
  get_recommendation embed index_search generate cid customer_df idx texts
  = (Return NOT_FOUND_MESSAGE, []).
Proof.
  intros Habs. unfold get_recommendation.
  now rewrite (matching_rows_absent _ _ Habs).
Qed.

(** C5 as stated does not hold: for an identifier that is not in the table
    the call raises nothing, so in particular no [NotFoundError]. *)
Lemma unknown_customer_raises_nothing :
  absent 42 [Fixtures.sample_profile]
  /\ ~ fails_with "NotFoundError"
       (fst (get_recommendation Fixtures.length_embed Fixtures.flat_search
               (Fixtures.constant_service "Take the Gold Card.")
               42 [Fixtures.sample_profile] Fixtures.three_index Fixtures.three_products)).
Proof.
  split.
  - repeat constructor. vm_compute. discriminate.
  - intros (e & He & _). vm_compute in He. discriminate.
Qed.

(** C5, amended. For every customer identifier absent from the profile
    table, [get_recommendation] returns the fixed text
    [NOT_FOUND_MESSAGE] as its value, whatever the identifier, and
    dispatches no generation request. *)
Theorem unknown_customer_returns_fixed_text :
  forall embed index_search generate (cid : Z) (customer_df : list CustomerProfile)
         (idx : Index) (texts : list string),
    absent cid customer_df ->
    get_recommendation embed index_search generate cid customer_df idx texts
    = (Return NOT_FOUND_MESSAGE, []).
Proof.
  intros embed index_search generate cid customer_df idx texts Habs.
  now apply get_recommendation_absent.
Qed.

Lemma unknown_customer_returns_fixed_text_witness :
  absent 42 [Fixtures.sample_profile]
  /\ get_recommendation Fixtures.length_embed Fixtures.flat_search
       (Fixtures.constant_service "Take the Gold Card.")
       42 [Fixtures.sample_profile] Fixtures.three_index Fixtures.three_products
     = (Return NOT_FOUND_MESSAGE, []).
Proof.
  assert (Habs : absent 42 [Fixtures.sample_profile]).
  { repeat constructor. vm_compute. discriminate. }
  split; [exact Habs |].
  apply (unknown_customer_returns_fixed_text _ _ _ 42 [Fixtures.sample_profile] _ _ Habs).
Defined.

(** C10. For every customer identifier absent from the profile table,
    [get_recommendation] returns the literal text "Error: Customer ID not
    found." as an ordinary return value; a call that did dispatch a
    request returns the service's text the same way, so when the service
    answers with that very text the two outcomes are equal. *)
Theorem not_found_shares_return_channel :
  forall embed index_search generate (cid : Z) (customer_df : list CustomerProfile)
         (idx : Index) (texts : list string),
    absent cid customer_df ->
    fst (get_recommendation embed index_search generate cid customer_df idx texts)
    = Return "Error: Customer ID not found."
    /\ returned (fst (get_recommendation embed index_search generate cid customer_df idx texts))
       = true
    /\ forall cid' customer_df' idx' texts' request,
         In request (snd (get_recommendation embed index_search generate
                            cid' customer_df' idx' texts')) ->
         generate request = Return "Error: Customer ID not found." ->
         fst (get_recommendation embed index_search generate cid' customer_df' idx' texts')
         = fst (get_recommendation embed index_search generate cid customer_df idx texts).
Proof.
  intros embed index_search generate cid customer_df idx texts Habs.
  rewrite (get_recommendation_absent _ _ _ _ _ _ _ Habs). simpl.
  repeat split.
  intros cid' customer_df' idx' texts' request Hin Hgen.
  rewrite (dispatched_answer _ _ _ _ _ _ _ _ Hin). simpl. exact Hgen.
Qed.

Lemma not_found_shares_return_channel_witness :
  absent 42 [Fixtures.sample_profile]
  /\ fst (get_recommendation Fixtures.length_embed Fixtures.flat_search
            (Fixtures.constant_service "Error: Customer ID not found.")
            42 [Fixtures.sample_profile] Fixtures.three_index Fixtures.three_products)
     = Return "Error: Customer ID not found."
  /\ fst (get_recommendation Fixtures.length_embed Fixtures.flat_search
            (Fixtures.constant_service "Error: Customer ID not found.")
            1 [Fixtures.sample_profile] Fixtures.three_index Fixtures.three_products)
     = fst (get_recommendation Fixtures.length_embed Fixtures.flat_search
              (Fixtures.constant_service "Error: Customer ID not found.")
              42 [Fixtures.sample_profile] Fixtures.three_index Fixtures.three_products).
Proof.
  assert (Habs : absent 42 [Fixtures.sample_profile]).
  { repeat constructor. vm_compute. discriminate. }
  destruct (not_found_shares_return_channel Fixtures.length_embed Fixtures.flat_search
              (Fixtures.constant_service "Error: Customer ID not found.")
              42 [Fixtures.sample_profile] Fixtures.three_index Fixtures.three_products
              Habs) as (Htext & _ & Hsame).
  split; [exact Habs |]. split; [exact Htext |].
  eapply Hsame; [| reflexivity].
  vm_compute. left. reflexivity.
Defined.

(** C6. For every customer profile found, once the three retrieved
    documents are at hand, [get_recommendation] dispatches exactly one
    request; it holds a single message of role [user]; the message text is
    the prompt literal filled with the rendered query and the first three
    retrieved documents, so the role instruction, the query and the three
    documents occur in it verbatim and in that order, the documents in
    the order the search returned their labels; and the caller receives
    the service's answer to that request. *)
Theorem request_carries_query_then_documents :
  forall embed index_search generate (cid : Z) (customer_df : list CustomerProfile)
         (idx : Index) (texts : list string)
         (customer_data : CustomerProfile) (others : list CustomerProfile)
         (distances : list Q) (labels : list Z)
         (doc0 doc1 doc2 : string) (more : list string),
    matching_rows customer_df cid = customer_data :: others ->
    index_search idx (embed (create_customer_query customer_data)) 3%nat
    = (distances, labels) ->
    mapM (getitem texts) labels = Return (doc0 :: doc1 :: doc2 :: more) ->
    Forall (fun doc => doc <> EmptyString) (doc0 :: doc1 :: doc2 :: more) ->
    exists prompt,
      get_recommendation embed index_search generate cid customer_df idx texts
      = (generate (mkRequest "llama3-8b-8192" [mkMessage "user" prompt] (1 # 2)),
         [mkRequest "llama3-8b-8192" [mkMessage "user" prompt] (1 # 2)])
      /\ prompt = build_prompt (create_customer_query customer_data) doc0 doc1 doc2
      /\ occur_in_order
           [ROLE_INSTRUCTION; create_customer_query customer_data; doc0; doc1; doc2]
           prompt.
Proof.
  intros embed index_search generate cid customer_df idx texts customer_data others
         distances labels doc0 doc1 doc2 more Hrow Hsearch Hdocs Hprint.
  exists (build_prompt (create_customer_query customer_data) doc0 doc1 doc2).
  split; [| split; [reflexivity |]].
  - unfold get_recommendation. rewrite Hrow, Hsearch, Hdocs. cbn [bind].
    destruct (first_lines_exist _ Hprint) as [lines Hlines].
    rewrite Hlines. cbn [bind].
    pose proof (getitem_nat (doc0 :: doc1 :: doc2 :: more) 0 doc0 eq_refl) as H0.
    pose proof (getitem_nat (doc0 :: doc1 :: doc2 :: more) 1 doc1 eq_refl) as H1.
    pose proof (getitem_nat (doc0 :: doc1 :: doc2 :: more) 2 doc2 eq_refl) as H2.
    change (Z.of_nat 0) with 0 in H0. change (Z.of_nat 1) with 1 in H1.
    change (Z.of_nat 2) with 2 in H2.
    rewrite H0. cbn [bind]. rewrite H1. cbn [bind]. rewrite H2. reflexivity.
  - simpl.
    exists (nl +:+ "    "),
           (nl +:+ nl +:+ "    **Customer Profile:**" +:+ nl +:+ "    "
            +:+ create_customer_query customer_data
            +:+ prompt_products +:+ doc0 +:+ prompt_second +:+ doc1
            +:+ prompt_third +:+ doc2 +:+ prompt_tail).
    split; [reflexivity |].
    exists (nl +:+ nl +:+ "    **Customer Profile:**" +:+ nl +:+ "    "),
           (prompt_products +:+ doc0 +:+ prompt_second +:+ doc1
            +:+ prompt_third +:+ doc2 +:+ prompt_tail).
    split; [reflexivity |].
    exists prompt_products, (prompt_second +:+ doc1 +:+ prompt_third +:+ doc2 +:+ prompt_tail).
    split; [reflexivity |].
    exists prompt_second, (prompt_third +:+ doc2 +:+ prompt_tail).
    split; [reflexivity |].
    exists prompt_third, prompt_tail.
    split; [reflexivity | exact I].
Qed.

Lemma request_carries_query_then_documents_witness :
  matching_rows [Fixtures.sample_profile] 1 = [Fixtures.sample_profile]
  /\ snd (Fixtures.flat_search Fixtures.three_index
            (Fixtures.length_embed (create_customer_query Fixtures.sample_profile)) 3)
     = [2; 0; 1]
  /\ exists prompt,
       get_recommendation Fixtures.length_embed Fixtures.flat_search
         (Fixtures.constant_service "Take the Saver Plus account.")
         1 [Fixtures.sample_profile] Fixtures.three_index Fixtures.three_products
       = (Return "Take the Saver Plus account.",
          [mkRequest "llama3-8b-8192" [mkMessage "user" prompt] (1 # 2)])
       /\ prompt = build_prompt (create_customer_query Fixtures.sample_profile)
                     "Saver Plus" "Gold Card" "Home Loans"
       /\ occur_in_order
            [ROLE_INSTRUCTION; create_customer_query Fixtures.sample_profile;
             "Saver Plus"; "Gold Card"; "Home Loans"]
            prompt.
Proof.
  split; [vm_compute; reflexivity |].
  split; [vm_compute; reflexivity |].
  apply (request_carries_query_then_documents
           Fixtures.length_embed Fixtures.flat_search
           (Fixtures.constant_service "Take the Saver Plus account.")
           1 [Fixtures.sample_profile] Fixtures.three_index Fixtures.three_products
           Fixtures.sample_profile []
           (fst (Fixtures.flat_search Fixtures.three_index
                   (Fixtures.length_embed (create_customer_query Fixtures.sample_profile)) 3))
           [2; 0; 1] "Saver Plus" "Gold Card" "Home Loans" []).
  - vm_compute; reflexivity.
  - vm_compute; reflexivity.
  - vm_compute; reflexivity.
  - repeat constructor; discriminate.
Defined.

(** ** The query builder *)

Lemma round_half_even_comp x y : (x == y)%Q -> round_half_even x = round_half_even y.
Proof.
  intros Hxy. unfold round_half_even.
  rewrite (Qfloor_comp _ _ Hxy).
  assert (Hc : ((x - inject_Z (Qfloor y)) ?= 1 # 2)%Q
               = ((y - inject_Z (Qfloor y)) ?= 1 # 2)%Q).
  { now rewrite Hxy. }
  now rewrite Hc.
Qed.

(** The rounded value is an integer nearest to the argument. *)
Lemma round_half_even_near x :
  (Qabs (inject_Z (round_half_even x) - x) <= 1 # 2)%Q.
Proof.
  unfold round_half_even.
  pose proof (Qfloor_le x) as Hlo. pose proof (Qlt_floor x) as Hhi.
  rewrite inject_Z_plus in Hhi. change (inject_Z 1) with 1%Q in Hhi.
  assert (Hup : (Qabs (inject_Z (Qfloor x + 1) - x) <= 1 # 2)%Q
                <-> (1 # 2 <= x - inject_Z (Qfloor x))%Q).
  { rewrite inject_Z_plus. change (inject_Z 1) with 1%Q.
    rewrite Qabs_Qle_condition. split; intros; [| split]; lra. }
  assert (Hdown : (Qabs (inject_Z (Qfloor x) - x) <= 1 # 2)%Q
                  <-> (x - inject_Z (Qfloor x) <= 1 # 2)%Q).
  { rewrite Qabs_Qle_condition. split; intros; [| split]; lra. }
  destruct (Qcompare_spec (x - inject_Z (Qfloor x)) (1 # 2)) as [He | Hl | Hg].
  - destruct (Z.even (Qfloor x)); [apply Hdown | apply Hup]; lra.
  - apply Hdown. lra.
  - apply Hup. lra.
Qed.

Lemma round_half_even_nonneg x : (0 <= x)%Q -> 0 <= round_half_even x.
Proof.
  intros Hx. unfold round_half_even.
  assert (Hfl : 0 <= Qfloor x).
  { change 0 with (Qfloor 0). now apply Qfloor_resp_le. }
  destruct (Qcompare _ _); [destruct (Z.even _) | |]; lia.
Qed.

Lemma sign_of_comp x y : (x == y)%Q -> sign_of x = sign_of y.
Proof.
  intros Hxy. unfold sign_of.
  assert (H : (Qnum x <? 0) = (Qnum y <? 0)).
  { unfold Qeq in Hxy.
    destruct (Z.ltb_spec (Qnum x) 0), (Z.ltb_spec (Qnum y) 0); try reflexivity; nia. }
  now rewrite H.
Qed.

Lemma scaled_comp p x y : (x == y)%Q -> scaled p x = scaled p y.
Proof. intros Hxy. unfold scaled. apply round_half_even_comp. now rewrite Hxy. Qed.

Lemma scaled_nonneg p q : 0 <= scaled p q.
Proof.
  unfold scaled. apply round_half_even_nonneg.
  apply Qmult_le_0_compat; [apply Qabs_nonneg |].
  change 0%Q with (inject_Z 0). rewrite <- Zle_Qle. apply Z.pow_nonneg. lia.
Qed.

(** Equal numbers are printed alike. *)
Lemma format_f_comp p x y : (x == y)%Q -> format_f p x = format_f p y.
Proof.
  intros Hxy. unfold format_f.
  now rewrite (sign_of_comp _ _ Hxy), (scaled_comp p _ _ Hxy).
Qed.

Lemma digit_is_digit m : is_digit (digit m) = true.
Proof.
  unfold digit. pose proof (Z.mod_pos_bound m 10 ltac:(lia)) as Hb.
  assert (Hn : (Z.to_nat (m mod 10) < 10)%nat) by lia.
  revert Hn. generalize (Z.to_nat (m mod 10)) as k. intros k Hk.
  do 10 (destruct k as [| k]; [reflexivity |]). lia.
Qed.

Lemma all_digits_uint u : all_digits (NilEmpty.string_of_uint u) = true.
Proof. induction u; simpl; auto. Qed.

Lemma str_int_digits n : 0 <= n -> all_digits (str_int n) = true.
Proof.
  intros Hn. unfold str_int. destruct n as [| p | p]; [reflexivity | | lia].
  simpl. unfold NilZero.string_of_uint.
  destruct (Pos.to_uint p); try reflexivity; apply all_digits_uint.
Qed.

Lemma format_f0_whole q : whole_amount q (format_f 0 q).
Proof.
  exists (scaled 0 q). pose proof (scaled_nonneg 0 q) as Hn.
  repeat split.
  - exact Hn.
  - unfold scaled.
    pose proof (round_half_even_near (Qabs q * inject_Z (10 ^ Z.of_nat 0))) as Hnear.
    change (inject_Z (10 ^ Z.of_nat 0)) with 1%Q in *.
    rewrite Qmult_1_r in Hnear at 2. exact Hnear.
  - unfold format_f. change (10 ^ Z.of_nat 0) with 1. now rewrite Z.div_1_r.
  - now apply str_int_digits.
Qed.

Lemma format_f2_decimals q : two_decimals q (format_f 2 q).
Proof.
  exists (scaled 2 q). pose proof (scaled_nonneg 2 q) as Hn.
  repeat split.
  - exact Hn.
  - apply round_half_even_near.
  - apply str_int_digits. apply Z.div_pos; lia.
  - apply digit_is_digit.
  - apply digit_is_digit.
Qed.

Lemma create_customer_query_comp p1 p2 :
  same_profile p1 p2 -> create_customer_query p1 = create_customer_query p2.
Proof.
  intros (_ & Ha & Hi & Hc & Hd & Hp & He & Hg & Hs).
  unfold create_customer_query.
  now rewrite Ha, Hc, Hp, He, Hg, Hs, (format_f_comp 0 _ _ Hi), (format_f_comp 2 _ _ Hd).
Qed.

Lemma create_customer_query_fields p :
  occur_in_order
    [str_int (age p); format_f 0 (income p);
     str_int (credit_score p); format_f 2 (debt_to_income_ratio p);
     str_int (product_count p); existing_products p;
     str_int (engagement_score p); employment_status p]
    (create_customer_query p).
Proof.
  unfold create_customer_query. simpl.
  eexists "Customer profile: Age ", _. split; [reflexivity |].
  eexists ". Income of $", _. split; [reflexivity |].
  eexists ". Credit score is ", _. split; [reflexivity |].
  eexists ". Debt-to-income ratio is ", _. split; [reflexivity |].
  eexists ". Holds ", _. split; [reflexivity |].
  eexists " products, including: ", _. split; [reflexivity |].
  eexists ". Digital engagement score is ", _. split; [reflexivity |].
  eexists ". Employment status: ", _. split; [reflexivity |].
  exact I.
Qed.

(** C7. [create_customer_query] is a function of the profile alone: two
    records of the same customer, with the floats equal as numbers,
    render to the same string, character for character.  The string
    embeds, in this order, the age, the income, the credit score, the
    debt-to-income ratio, the product count, the held products, the
    engagement score and the employment status; the income is printed as
    a whole amount and the ratio to two decimal places. *)
Theorem create_customer_query_deterministic :
  forall p1 p2 : CustomerProfile,
    same_profile p1 p2 ->
    create_customer_query p1 = create_customer_query p2
    /\ occur_in_order
         [str_int (age p1); format_f 0 (income p1);
          str_int (credit_score p1); format_f 2 (debt_to_income_ratio p1);
          str_int (product_count p1); existing_products p1;
          str_int (engagement_score p1); employment_status p1]
         (create_customer_query p1)
    /\ whole_amount (income p1) (format_f 0 (income p1))
    /\ two_decimals (debt_to_income_ratio p1) (format_f 2 (debt_to_income_ratio p1)).
Proof.
  intros p1 p2 Hsame. split; [| split; [| split]].
  - now apply create_customer_query_comp.
  - apply create_customer_query_fields.
  - apply format_f0_whole.
  - apply format_f2_decimals.
Qed.

Lemma create_customer_query_deterministic_witness :
  same_profile Fixtures.sample_profile Fixtures.sample_profile'
  /\ create_customer_query Fixtures.sample_profile
     = create_customer_query Fixtures.sample_profile'
  /\ create_customer_query Fixtures.sample_profile
     = "Customer profile: Age 30. Income of $60000. Credit score is 700. Debt-to-income ratio is 0.30. Holds 1 products, including: Checking Account. Digital engagement score is 20. Employment status: Employed.".
Proof.
  assert (Hsame : same_profile Fixtures.sample_profile Fixtures.sample_profile').
  { unfold same_profile. simpl. repeat split; reflexivity. }
  split; [exact Hsame |].
  split; [| vm_compute; reflexivity].
  exact (proj1 (create_customer_query_deterministic _ _ Hsame)).
Defined.

(** ** Start-up: failures and the build-or-load policy *)

Lemma never_configuration_error {A : Type} (r : result A) :
  ~ fails_with "ConfigurationError" r.
Proof. intros (e & _ & Hname). destruct e; discriminate. Qed.

Lemma missing_corpus_fresh embed (fs : filesystem) :
  fs !! INDEX_PATH = None ->
  fs !! PRODUCT_KB_PATH = None ->
  build_or_load_index embed fs = (Raise (FileNotFoundError PRODUCT_KB_PATH), fs).
Proof.
  intros Hidx Hkb. unfold build_or_load_index, path_exists, read_text.
  now rewrite Hidx, Hkb.
Qed.

Lemma missing_corpus_load embed (fs : filesystem) idx :
  faiss_read_index fs INDEX_PATH = Return idx ->
  fs !! PRODUCT_KB_PATH = None ->
  build_or_load_index embed fs = (Raise (FileNotFoundError PRODUCT_KB_PATH), fs).
Proof.
  intros Hidx Hkb. unfold build_or_load_index, path_exists, read_text.
  assert (Hex : exists f, fs !! INDEX_PATH = Some f).
  { unfold faiss_read_index in Hidx. destruct (fs !! INDEX_PATH); [eauto | discriminate]. }
  destruct Hex as [f Hf]. rewrite Hf, Hidx, Hkb. reflexivity.
Qed.

Lemma missing_corpus_raises embed (fs : filesystem) :
  fs !! PRODUCT_KB_PATH = None ->
  exists e, build_or_load_index embed fs = (Raise e, fs).
Proof.
  intros Hkb. unfold build_or_load_index, path_exists, read_text. rewrite Hkb.
  destruct (fs !! INDEX_PATH) as [f |]; simpl; [| eauto].
  destruct (faiss_read_index fs INDEX_PATH); simpl; eauto.
Qed.

Lemma fresh_build_eq embed dim (fs : filesystem) corpus :
  (forall text, List.length (embed text) = dim) ->
  fs !! INDEX_PATH = None ->
  fs !! PRODUCT_KB_PATH = Some (TextFile corpus) ->
  stripped_segments KB_DELIMITER corpus <> [] ->
  build_or_load_index embed fs
  = (Return (mkIndex dim (encode embed (stripped_segments KB_DELIMITER corpus)),
             stripped_segments KB_DELIMITER corpus),
     faiss_write_index
       (mkIndex dim (encode embed (stripped_segments KB_DELIMITER corpus)))
       INDEX_PATH fs).
Proof.
  intros Hdim Hidx Hkb Hdocs.
  unfold build_or_load_index, path_exists, read_text. rewrite Hidx, Hkb. cbn [bind].
  assert (Hshape : shape1 (encode embed (stripped_segments KB_DELIMITER corpus)) = Return dim).
  { destruct (stripped_segments KB_DELIMITER corpus) as [| doc docs]; [contradiction |].
    simpl. now rewrite Hdim. }
  rewrite Hshape. cbn [bind].
  rewrite add_uniform; [reflexivity |].
  unfold encode. apply List.Forall_forall. intros v Hv.
  apply in_map_iff in Hv as (text & <- & _). apply Hdim.
Qed.

(** C8 as stated does not hold: neither a missing corpus file nor a corpus
    that is empty after filtering, with or without a persisted index,
    makes the start-up fail with a [ConfigurationError]. *)
Lemma loader_raises_no_configuration_error :
  ((∅ : filesystem) !! PRODUCT_KB_PATH = None
   /\ ~ fails_with "ConfigurationError"
        (fst (build_or_load_index Fixtures.length_embed ∅)))
  /\ (documents_spec KB_DELIMITER Fixtures.blank_corpus = []
      /\ ~ fails_with "ConfigurationError"
           (fst (build_or_load_index Fixtures.length_embed Fixtures.fs_blank))
      /\ returned (fst (build_or_load_index Fixtures.length_embed
                          Fixtures.fs_blank_with_index)) = true).
Proof.
  split; [split | split; [| split]].
  - reflexivity.
  - apply never_configuration_error.
  - vm_compute; reflexivity.
  - apply never_configuration_error.
  - vm_compute; reflexivity.
Qed.

(** C8, amended. When the corpus file is missing and the index file is
    absent or readable, the start-up fails with Python's
    [FileNotFoundError] for the corpus path and leaves the files as they
    were.  No start-up fails with a [ConfigurationError]; a corpus that is
    empty after filtering is not checked for: next to a readable index its
    raw segments are returned. *)
Theorem loader_fails_with_file_not_found :
  forall (embed : string -> vector) (fs : filesystem),
    (path_exists fs INDEX_PATH = true ->
     returned (faiss_read_index fs INDEX_PATH) = true) ->
    (fs !! PRODUCT_KB_PATH = None ->
     build_or_load_index embed fs = (Raise (FileNotFoundError PRODUCT_KB_PATH), fs)
     /\ fails_with "FileNotFoundError" (fst (build_or_load_index embed fs)))
    /\ ~ fails_with "ConfigurationError" (fst (build_or_load_index embed fs))
    /\ (forall idx corpus,
          faiss_read_index fs INDEX_PATH = Return idx ->
          fs !! PRODUCT_KB_PATH = Some (TextFile corpus) ->
          build_or_load_index embed fs
          = (Return (idx, raw_segments KB_DELIMITER corpus), fs)).
Proof.
  intros embed fs Hreadable. split; [| split].
  - intros Hkb.
    assert (Heq : build_or_load_index embed fs
                  = (Raise (FileNotFoundError PRODUCT_KB_PATH), fs)).
    { unfold path_exists in Hreadable.
      destruct (fs !! INDEX_PATH) as [f |] eqn:Hf.
      - specialize (Hreadable eq_refl).
        destruct (faiss_read_index fs INDEX_PATH) as [idx |] eqn:Hidx; [| discriminate].
        now apply (missing_corpus_load embed fs idx).
      - now apply missing_corpus_fresh. }
    split; [exact Heq |]. rewrite Heq. simpl. eexists. split; reflexivity.
  - apply never_configuration_error.
  - intros idx corpus Hidx Hkb. now apply load_existing_eq.
Qed.

Lemma loader_fails_with_file_not_found_witness :
  (path_exists (∅ : filesystem) INDEX_PATH = true ->
   returned (faiss_read_index (∅ : filesystem) INDEX_PATH) = true)
  /\ build_or_load_index Fixtures.length_embed ∅
     = (Raise (FileNotFoundError "products.txt"), ∅).
Proof.
  assert (Hreadable : path_exists (∅ : filesystem) INDEX_PATH = true ->
                      returned (faiss_read_index (∅ : filesystem) INDEX_PATH) = true).
  { intros Hex. vm_compute in Hex. discriminate. }
  split; [exact Hreadable |].
  apply (proj1 (loader_fails_with_file_not_found Fixtures.length_embed ∅ Hreadable)).
  reflexivity.
Defined.

(** C9 as stated does not hold: with the persisted index present and the
    corpus file absent no fresh index is built and nothing is returned,
    and the same holds when both are absent. *)
Lemma absent_corpus_is_not_rebuilt :
  (path_exists Fixtures.fs_index_only INDEX_PATH = true
   /\ path_exists Fixtures.fs_index_only PRODUCT_KB_PATH = false
   /\ returned (fst (build_or_load_index Fixtures.length_embed Fixtures.fs_index_only))
      = false
   /\ snd (build_or_load_index Fixtures.length_embed Fixtures.fs_index_only)
      = Fixtures.fs_index_only)
  /\ returned (fst (build_or_load_index Fixtures.length_embed ∅)) = false.
Proof.
  repeat split; vm_compute; reflexivity.
Qed.

(** C9, amended. For an embedding model of fixed dimensionality: when the
    index file exists and parses and the corpus file is present, the
    persisted index is returned together with the segments of the corpus
    file and nothing is written; when no index file exists and the corpus
    file is present with at least one non-empty segment, a fresh index is
    built from the loader output, written to the index path and returned;
    when the corpus file is absent the start-up fails, whether or not an
    index file exists, and nothing is built or written. *)
Theorem build_or_load_policy :
  forall (embed : string -> vector) (dim : nat) (fs : filesystem),
    (forall text, List.length (embed text) = dim) ->
    (forall idx corpus,
       faiss_read_index fs INDEX_PATH = Return idx ->
       fs !! PRODUCT_KB_PATH = Some (TextFile corpus) ->
       build_or_load_index embed fs
       = (Return (idx, raw_segments KB_DELIMITER corpus), fs))
    /\ (forall corpus,
          fs !! INDEX_PATH = None ->
          fs !! PRODUCT_KB_PATH = Some (TextFile corpus) ->
          stripped_segments KB_DELIMITER corpus <> [] ->
          exists idx,
            build_or_load_index embed fs
            = (Return (idx, stripped_segments KB_DELIMITER corpus),
               <[INDEX_PATH := IndexFile (write_index idx)]> fs)
            /\ xb idx = encode embed (stripped_segments KB_DELIMITER corpus)
            /\ d idx = dim)
    /\ (fs !! PRODUCT_KB_PATH = None ->
        exists e, build_or_load_index embed fs = (Raise e, fs)).
Proof.
  intros embed dim fs Hdim. split; [| split].
  - intros idx corpus Hidx Hkb. now apply load_existing_eq.
  - intros corpus Hidx Hkb Hdocs.
    exists (mkIndex dim (encode embed (stripped_segments KB_DELIMITER corpus))).
    split; [| split; reflexivity].
    now apply fresh_build_eq.
  - apply missing_corpus_raises.
Qed.

Lemma build_or_load_policy_witness :
  (forall text, List.length (Fixtures.length_embed text) = 1%nat)
  /\ exists idx,
       build_or_load_index Fixtures.length_embed Fixtures.fs_corpus_only
       = (Return (idx, ["Gold Card"; "Home Loans"]),
          <[INDEX_PATH := IndexFile (write_index idx)]> Fixtures.fs_corpus_only)
       /\ xb idx = [[9 # 1]; [10 # 1]]%Q
       /\ d idx = 1%nat.
Proof.
  assert (Hdim : forall text, List.length (Fixtures.length_embed text) = 1%nat)
    by reflexivity.
  split; [exact Hdim |].
  destruct (build_or_load_policy Fixtures.length_embed 1 Fixtures.fs_corpus_only Hdim)
    as (_ & Hfresh & _).
  apply (Hfresh Fixtures.leading_delimiter_corpus).
  - vm_compute; reflexivity.
  - vm_compute; reflexivity.
  - vm_compute; discriminate.
Defined.

(* ===================================================================== *)
(** * Further properties of the scripts, the loader and the front end     *)
(* ===================================================================== *)

(** ** Splitting and joining *)

Lemma concat_cons_char sep c seg segs :
  String.concat sep (String c seg :: segs) = String c (String.concat sep (seg :: segs)).
Proof. destruct segs; reflexivity. Qed.

Lemma prefix_app sep s :
  String.prefix sep s = true -> exists rest, s = sep +:+ rest.
Proof.
  revert s. induction sep as [| a sep IH]; intros s Hp.
  - exists s. reflexivity.
  - destruct s as [| b s]; [discriminate |]. simpl in Hp.
    destruct (Ascii.ascii_dec a b) as [-> | Hne]; [| discriminate].
    destruct (IH s Hp) as [rest ->]. exists rest. reflexivity.
Qed.

Lemma string_length_app s1 s2 :
  String.length (s1 +:+ s2) = (String.length s1 + String.length s2)%nat.
Proof. induction s1 as [| c s1 IH]; simpl; [reflexivity | now rewrite IH]. Qed.

Lemma split_go_skip sep skipped rest :
  split_go sep (String.length skipped) (skipped +:+ rest) = split_go sep 0 rest.
Proof.
  induction skipped as [| c skipped IH]; simpl.
  - destruct rest; reflexivity.
  - exact IH.
Qed.

Lemma split_go_join sep fuel s :
  sep <> EmptyString ->
  (String.length s <= fuel)%nat ->
  String.concat sep (fst (split_go sep 0 s) :: snd (split_go sep 0 s)) = s.
Proof.
  intros Hsep. revert s. induction fuel as [| fuel IH]; intros s Hlen.
  - destruct s; [reflexivity | simpl in Hlen; lia].
  - destruct s as [| c s']; [reflexivity |].
    cbn [split_go].
    destruct (String.prefix sep (String c s')) eqn:Hp.
    + destruct (prefix_app _ _ Hp) as [rest Hrest].
      destruct sep as [| c0 sep']; [contradiction |].
      simpl in Hrest. injection Hrest as -> ->.
      replace (String.length (String c0 sep') - 1)%nat with (String.length sep')
        by (simpl; lia).
      rewrite split_go_skip.
      assert (Hr : (String.length rest <= fuel)%nat).
      { simpl in Hlen. rewrite string_length_app in Hlen. lia. }
      specialize (IH rest Hr).
      destruct (split_go (String c0 sep') 0 rest) as [seg segs].
      simpl in IH. simpl. f_equal. rewrite IH. reflexivity.
    + assert (Hr : (String.length s' <= fuel)%nat) by (simpl in Hlen; lia).
      specialize (IH s' Hr).
      destruct (split_go sep 0 s') as [seg segs].
      change (String.concat sep (String c seg :: segs) = String c s').
      change (String.concat sep (seg :: segs) = s') in IH.
      rewrite concat_cons_char. now rewrite IH.
Qed.

Lemma raw_segments_join delim corpus :
  delim <> EmptyString ->
  String.concat delim (raw_segments delim corpus) = corpus.
Proof.
  intros Hd. unfold raw_segments, split.
  pose proof (split_go_join delim (String.length corpus) corpus Hd (Nat.le_refl _)) as H.
  destruct (split_go delim 0 corpus) as [seg segs]. exact H.
Qed.

Lemma universal_newlines_without_cr s :
  count_char CR s = 0%nat -> universal_newlines s = s.
Proof.
  induction s as [| c s IH]; [reflexivity |].
  cbn [count_char universal_newlines].
  destruct (Ascii.eqb c CR); [discriminate |].
  intros Hs. now rewrite IH.
Qed.

(** X1. On the load-existing path the returned product texts, joined with
    the delimiter, are the text of the corpus file as text-mode reading
    delivers it: the stored characters with every CR LF and every lone CR
    turned into LF.  For a file stored without CR they are the stored
    characters themselves. *)
Theorem load_path_segments_join_to_corpus :
  forall (embed : string -> vector) (fs fs' : filesystem)
         (idx : Index) (texts : list string) (stored : string),
    path_exists fs INDEX_PATH = true ->
    fs !! PRODUCT_KB_PATH = Some (Disk.text_file stored) ->
    build_or_load_index embed fs = (Return (idx, texts), fs') ->
    String.concat KB_DELIMITER texts = universal_newlines stored
    /\ (count_char CR stored = 0%nat -> String.concat KB_DELIMITER texts = stored).
Proof.
  intros embed fs fs' idx texts stored Hex Hkb.
  unfold build_or_load_index, read_text. rewrite Hex, Hkb. unfold Disk.text_file.
  destruct (faiss_read_index fs INDEX_PATH) as [loaded | e]; cbn [bind];
    [| discriminate].
  intros [= _ <- _].
  assert (Hjoin : String.concat KB_DELIMITER
                    (raw_segments KB_DELIMITER (universal_newlines stored))
                  = universal_newlines stored).
  { apply raw_segments_join. discriminate. }
  split; [exact Hjoin |].
  intros Hcr. rewrite Hjoin. now apply universal_newlines_without_cr.
Qed.

Lemma load_path_segments_join_to_corpus_witness :
  String.concat KB_DELIMITER ["Gold Card" +:+ nl; nl +:+ "Home Loans" +:+ nl]
  = "Gold Card" +:+ nl +:+ KB_DELIMITER +:+ nl +:+ "Home Loans" +:+ nl
  /\ "Gold Card" +:+ nl +:+ KB_DELIMITER +:+ nl +:+ "Home Loans" +:+ nl
     <> Scenarios.crlf_corpus.
Proof.
  split; [| vm_compute; discriminate].
  destruct (load_path_segments_join_to_corpus Fixtures.length_embed
              Scenarios.fs_crlf_with_index Scenarios.fs_crlf_with_index
              (mkIndex 1 [[9 # 1]; [10 # 1]]%Q)
              ["Gold Card" +:+ nl; nl +:+ "Home Loans" +:+ nl]
              Scenarios.crlf_corpus) as [Hjoin _].
  - vm_compute; reflexivity.
  - vm_compute; reflexivity.
  - vm_compute; reflexivity.
  - rewrite Hjoin. vm_compute. reflexivity.
Defined.

Lemma map_filter_fixed {A : Type} (f : A -> A) (g : A -> bool) (l : list A) :
  map f (List.filter g l) = l <-> Forall (fun x => g x = true /\ f x = x) l.
Proof.
  split.
  - induction l as [| a l IH]; intros Heq; [constructor |].
    simpl in Heq. destruct (g a) eqn:Hg.
    + simpl in Heq. injection Heq as Ha Hl. constructor; auto.
    + exfalso. apply (f_equal (@List.length A)) in Heq.
      rewrite length_map in Heq. simpl in Heq.
      pose proof (List.filter_length_le g l). lia.
  - induction 1 as [| a l [Hg Hf] Hl IH]; simpl; [reflexivity |].
    rewrite Hg. simpl. now rewrite Hf, IH.
Qed.

(** ** Start-up: what it writes and what it returns *)

Lemma build_footprint_aux embed (fs : filesystem) :
  snd (build_or_load_index embed fs) = fs
  \/ exists idx texts,
       fs !! INDEX_PATH = None
       /\ build_or_load_index embed fs
          = (Return (idx, texts), <[INDEX_PATH := IndexFile (write_index idx)]> fs)
       /\ read_index (write_index idx) = Some idx.
Proof.
  unfold build_or_load_index, path_exists.
  destruct (fs !! INDEX_PATH) as [f |] eqn:Hf; [left; reflexivity |].
  destruct (read_text fs PRODUCT_KB_PATH) as [corpus | e]; cbn [bind];
    [| left; reflexivity].
  destruct (shape1 _) as [dim | e]; cbn [bind]; [| left; reflexivity].
  destruct (add _ _) as [idx | e] eqn:Hadd; cbn [bind]; [| left; reflexivity].
  right. exists idx, (stripped_segments KB_DELIMITER corpus).
  apply add_to_empty in Hadd as [_ Hwf].
  repeat split. now apply read_write_index.
Qed.

(** X2. [build_or_load_index] never creates, changes or removes a file other
    than the index file, and it either leaves all files as they were or, having
    found no index file, writes the blob of the index it returns, which
    parses back to that index. *)
Theorem startup_writes_only_the_index :
  forall (embed : string -> vector) (fs : filesystem) (path : string),
    path <> INDEX_PATH ->
    snd (build_or_load_index embed fs) !! path = fs !! path
    /\ (snd (build_or_load_index embed fs) = fs
        \/ exists idx texts,
             fs !! INDEX_PATH = None
             /\ build_or_load_index embed fs
                = (Return (idx, texts), <[INDEX_PATH := IndexFile (write_index idx)]> fs)
             /\ read_index (write_index idx) = Some idx).
Proof.
  intros embed fs path Hpath.
  pose proof (build_footprint_aux embed fs) as Hfoot. split; [| exact Hfoot].
  destruct Hfoot as [-> | (idx & texts & _ & -> & _)]; [reflexivity |].
  simpl. now rewrite lookup_insert_ne.
Qed.

Lemma startup_writes_only_the_index_witness :
  snd (build_or_load_index Fixtures.length_embed Fixtures.fs_corpus_only) !! PRODUCT_KB_PATH
  = Fixtures.fs_corpus_only !! PRODUCT_KB_PATH.
Proof.
  apply (startup_writes_only_the_index Fixtures.length_embed Fixtures.fs_corpus_only
           PRODUCT_KB_PATH).
  vm_compute. discriminate.
Defined.

(** X3. On the fresh-build path the returned index holds exactly one vector
    per returned document, vector [i] being the embedding of document [i];
    there is at least one document, every document is trimmed and
    non-empty, and all vectors have the recorded dimensionality. *)
Theorem fresh_build_is_aligned :
  forall (embed : string -> vector) (fs fs' : filesystem)
         (idx : Index) (texts : list string),
    fs !! INDEX_PATH = None ->
    build_or_load_index embed fs = (Return (idx, texts), fs') ->
    ntotal idx = List.length texts
    /\ (forall i : nat, xb idx !! i = embed <$> texts !! i)
    /\ texts <> []
    /\ Forall (fun doc => trimmed doc /\ doc <> EmptyString) texts
    /\ well_formed idx.
Proof.
  intros embed fs fs' idx texts Hno Hbuild.
  destruct (fresh_build_inv embed fs fs' idx texts Hno Hbuild)
    as (corpus & Hkb & -> & Hxb & Hwf & _).
  split; [| split; [| split; [| split]]].
  - unfold ntotal. rewrite Hxb. unfold encode. apply length_map.
  - intros i. rewrite Hxb. unfold encode. apply list_lookup_fmap.
  - intros Hnil. revert Hbuild.
    unfold build_or_load_index, path_exists, read_text. rewrite Hno, Hkb.
    cbn [bind]. rewrite Hnil. simpl. discriminate.
  - apply stripped_segments_clean.
  - exact Hwf.
Qed.

Lemma fresh_build_is_aligned_witness :
  ntotal (mkIndex 1 [[9 # 1]; [10 # 1]]%Q) = List.length ["Gold Card"; "Home Loans"]
  /\ (forall i : nat,
        xb (mkIndex 1 [[9 # 1]; [10 # 1]]%Q) !! i
        = Fixtures.length_embed <$> ["Gold Card"; "Home Loans"] !! i).
Proof.
  destruct (fresh_build_is_aligned Fixtures.length_embed Fixtures.fs_corpus_only
              (snd Fixtures.first_run) (mkIndex 1 [[9 # 1]; [10 # 1]]%Q)
              ["Gold Card"; "Home Loans"]) as (Hn & Hpos & _).
  - vm_compute; reflexivity.
  - vm_compute; reflexivity.
  - split; [exact Hn | exact Hpos].
Defined.

(** X4. The documents of the fresh-build path and the segments of the
    load-existing path are the same list exactly when every raw segment of
    the corpus is already trimmed and non-empty. *)
Theorem paths_agree_iff_segments_clean :
  forall delim corpus : string,
    stripped_segments delim corpus = raw_segments delim corpus
    <-> Forall (fun segment => strip segment = segment /\ segment <> EmptyString)
               (raw_segments delim corpus).
Proof.
  intros delim corpus. unfold stripped_segments, raw_segments.
  rewrite (map_filter_fixed strip (fun text => negb (is_empty (strip text)))).
  split; intros H; eapply List.Forall_impl; try exact H; simpl.
  - intros s [Hne Hs]. split; [exact Hs |]. intros ->. rewrite Hs in Hne. discriminate.
  - intros s [Hs Hne]. split; [| exact Hs]. rewrite Hs. destruct s; [contradiction | reflexivity].
Qed.

(** ** The orchestrator on short, stale or padded retrievals *)

Lemma getitem_raises {A : Type} (l : list A) i e :
  getitem l i = Raise e -> e = IndexError.
Proof.
  unfold getitem.
  repeat match goal with
         | |- context [if ?b then _ else _] => destruct b
         | |- context [match ?o with Some _ => _ | None => _ end] => destruct o
         end; congruence.
Qed.

Lemma first_line_raises s e : first_line s = Raise e -> e = IndexError.
Proof. unfold first_line. destruct (is_empty s); congruence. Qed.

Lemma mapM_raises {A B : Type} (f : A -> result B) l e :
  (forall a e', f a = Raise e' -> e' = IndexError) ->
  mapM f l = Raise e -> e = IndexError.
Proof.
  intros Hf. induction l as [| a l IH]; simpl; [discriminate |].
  destruct (f a) as [b | e'] eqn:Hfa; cbn [bind].
  - destruct (mapM f l) as [bs | e'']; cbn [bind]; [discriminate |].
    intros [= <-]. now apply IH.
  - intros [= <-]. eapply Hf; eassumption.
Qed.

Lemma mapM_Exists_raises {A B : Type} (f : A -> result B) l :
  Exists (fun a => returned (f a) = false) l -> returned (mapM f l) = false.
Proof.
  induction 1 as [a l Ha | a l Hl IH]; simpl.
  - destruct (f a); [discriminate | reflexivity].
  - destruct (f a); cbn [bind]; [| reflexivity].
    destruct (mapM f l); [discriminate | reflexivity].
Qed.

Lemma getitem_out_of_range {A : Type} (l : list A) i :
  i < - Z.of_nat (List.length l) \/ Z.of_nat (List.length l) <= i ->
  getitem l i = Raise IndexError.
Proof.
  intros Hi. unfold getitem.
  replace ((0 <=? i) && (i <? Z.of_nat (List.length l))) with false
    by (symmetry; apply andb_false_iff; destruct Hi;
        [left; apply Z.leb_gt | right; apply Z.ltb_ge]; lia).
  replace ((- Z.of_nat (List.length l) <=? i) && (i <? 0)) with false
    by (symmetry; apply andb_false_iff; destruct Hi;
        [left; apply Z.leb_gt | right; apply Z.ltb_ge]; lia).
  reflexivity.
Qed.

Lemma getitem_negative {A : Type} (l : list A) (k : nat) (a : A) :
  (k < List.length l)%nat ->
  l !! (List.length l - S k)%nat = Some a ->
  getitem l (- Z.of_nat (S k)) = Return a.
Proof.
  intros Hk Ha. unfold getitem.
  replace ((0 <=? - Z.of_nat (S k)) && _) with false
    by (symmetry; apply andb_false_iff; left; apply Z.leb_gt; lia).
  replace ((- Z.of_nat (List.length l) <=? - Z.of_nat (S k)) && (- Z.of_nat (S k) <? 0))
    with true
    by (symmetry; apply andb_true_iff; split; [apply Z.leb_le | apply Z.ltb_lt]; lia).
  replace (Z.to_nat (Z.of_nat (List.length l) + - Z.of_nat (S k)))
    with (List.length l - S k)%nat by lia.
  now rewrite Ha.
Qed.

Lemma get_recommendation_found embed index_search generate cid customer_df idx texts
      customer_data others :
  matching_rows customer_df cid = customer_data :: others ->
  get_recommendation embed index_search generate cid customer_df idx texts
  = match assemble texts
            (snd (index_search idx (embed (create_customer_query customer_data)) 3%nat))
            (create_customer_query customer_data)
    with
    | Raise e => (Raise e, [])
    | Return prompt =>
        (generate (mkRequest "llama3-8b-8192" [mkMessage "user" prompt] (1 # 2)),
         [mkRequest "llama3-8b-8192" [mkMessage "user" prompt] (1 # 2)])
    end.
Proof.
  intros Hrow. unfold get_recommendation, assemble. rewrite Hrow.
  destruct (index_search idx _ 3%nat) as [distances labels]. reflexivity.
Qed.

Lemma assemble_raises texts labels query e :
  assemble texts labels query = Raise e -> e = IndexError.
Proof.
  unfold assemble.
  destruct (mapM (getitem texts) labels) as [docs | e1] eqn:Hdocs; cbn [bind].
  2:{ intros [= <-]. eapply mapM_raises; [| exact Hdocs].
      intros a e'. apply getitem_raises. }
  destruct (mapM first_line docs) as [lines | e1] eqn:Hlines; cbn [bind].
  2:{ intros [= <-]. eapply mapM_raises; [| exact Hlines].
      intros a e'. apply first_line_raises. }
  destruct (getitem docs 0) as [d0 | e1] eqn:H0; cbn [bind];
    [| intros [= <-]; eapply getitem_raises; exact H0].
  destruct (getitem docs 1) as [d1 | e1] eqn:H1; cbn [bind];
    [| intros [= <-]; eapply getitem_raises; exact H1].
  destruct (getitem docs 2) as [d2 | e1] eqn:H2; cbn [bind];
    [| intros [= <-]; eapply getitem_raises; exact H2].
  discriminate.
Qed.

Lemma assemble_returns texts labels query prompt :
  assemble texts labels query = Return prompt ->
  exists doc0 doc1 doc2, prompt = build_prompt query doc0 doc1 doc2.
Proof.
  unfold assemble.
  destruct (mapM (getitem texts) labels) as [docs | e1]; cbn [bind]; [| discriminate].
  destruct (mapM first_line docs) as [lines | e1]; cbn [bind]; [| discriminate].
  destruct (getitem docs 0) as [d0 | e1]; cbn [bind]; [| discriminate].
  destruct (getitem docs 1) as [d1 | e1]; cbn [bind]; [| discriminate].
  destruct (getitem docs 2) as [d2 | e1]; cbn [bind]; [| discriminate].
  intros [= <-]. eauto.
Qed.

(** X5. [get_recommendation] ends in one of three ways: the identifier is
    in no row, the fixed text is returned and nothing is dispatched; or a
    row was found, [IndexError] is raised and nothing is dispatched; or
    exactly one request is dispatched, holding one [user] message built
    from the first matching row, with model [llama3-8b-8192] and
    temperature one half, and the outcome of the call is the outcome of
    the service, text or exception. *)
Theorem recommendation_outcomes :
  forall embed index_search generate (cid : Z) (customer_df : list CustomerProfile)
         (idx : Index) (texts : list string),
    (matching_rows customer_df cid = []
     /\ get_recommendation embed index_search generate cid customer_df idx texts
        = (Return NOT_FOUND_MESSAGE, []))
    \/ (matching_rows customer_df cid <> []
        /\ get_recommendation embed index_search generate cid customer_df idx texts
           = (Raise IndexError, []))
    \/ (exists customer_data others doc0 doc1 doc2,
          matching_rows customer_df cid = customer_data :: others
          /\ get_recommendation embed index_search generate cid customer_df idx texts
             = (generate
                  (mkRequest "llama3-8b-8192"
                     [mkMessage "user"
                        (build_prompt (create_customer_query customer_data) doc0 doc1 doc2)]
                     (1 # 2)),
                [mkRequest "llama3-8b-8192"
                   [mkMessage "user"
                      (build_prompt (create_customer_query customer_data) doc0 doc1 doc2)]
                   (1 # 2)])).
Proof.
  intros embed index_search generate cid customer_df idx texts.
  destruct (matching_rows customer_df cid) as [| customer_data others] eqn:Hrows.
  - left. split; [reflexivity |]. unfold get_recommendation. now rewrite Hrows.
  - right. rewrite (get_recommendation_found _ _ _ _ _ _ _ _ _ Hrows).
    destruct (assemble _ _ _) as [prompt | e] eqn:Hasm.
    + right. destruct (assemble_returns _ _ _ _ Hasm) as (d0 & d1 & d2 & ->).
      exists customer_data, others, d0, d1, d2. split; reflexivity.
    + left. split; [discriminate |]. now rewrite (assemble_raises _ _ _ _ Hasm).
Qed.

(** X7. For a found customer, a label outside the subscript range of the
    product texts (below minus their number, or at least their number)
    makes [get_recommendation] raise [IndexError] without dispatching a
    request. *)
Theorem label_out_of_range_raises :
  forall embed index_search generate (cid : Z) (customer_df : list CustomerProfile)
         (idx : Index) (texts : list string)
         (customer_data : CustomerProfile) (others : list CustomerProfile),
    matching_rows customer_df cid = customer_data :: others ->
    Exists (fun label => label < - Z.of_nat (List.length texts)
                         \/ Z.of_nat (List.length texts) <= label)
           (snd (index_search idx (embed (create_customer_query customer_data)) 3%nat)) ->
    get_recommendation embed index_search generate cid customer_df idx texts
    = (Raise IndexError, []).
Proof.
  intros embed index_search generate cid customer_df idx texts customer_data others
         Hrow Hbad.
  rewrite (get_recommendation_found _ _ _ _ _ _ _ _ _ Hrow).
  destruct (assemble _ _ _) as [prompt | e] eqn:Hasm;
    [| now rewrite (assemble_raises _ _ _ _ Hasm)].
  exfalso. revert Hasm. unfold assemble.
  assert (Hfail : returned (mapM (getitem texts)
                    (snd (index_search idx (embed (create_customer_query customer_data)) 3%nat)))
                  = false).
  { apply mapM_Exists_raises. eapply List.Exists_impl; [| exact Hbad].
    intros label Hl. simpl. now rewrite getitem_out_of_range. }
  destruct (mapM (getitem texts) _); [discriminate | cbn [bind]; discriminate].
Qed.

Lemma label_out_of_range_raises_witness :
  get_recommendation Fixtures.length_embed Fixtures.flat_search
    (Fixtures.constant_service "Take the Gold Card.")
    1 [Fixtures.sample_profile] Fixtures.three_index Scenarios.two_products
  = (Raise IndexError, []).
Proof.
  apply (label_out_of_range_raises Fixtures.length_embed Fixtures.flat_search
           (Fixtures.constant_service "Take the Gold Card.")
           1 [Fixtures.sample_profile] Fixtures.three_index Scenarios.two_products
           Fixtures.sample_profile []).
  - vm_compute; reflexivity.
  - apply List.Exists_exists. exists 2. split.
    + vm_compute. left. reflexivity.
    + right. simpl. lia.
Defined.

(** X8. For a found customer, an empty string among the retrieved documents
    makes [get_recommendation] raise [IndexError] (no first line to
    print) without dispatching a request. *)
Theorem empty_document_raises :
  forall embed index_search generate (cid : Z) (customer_df : list CustomerProfile)
         (idx : Index) (texts : list string)
         (customer_data : CustomerProfile) (others : list CustomerProfile)
         (retrieved_docs : list string),
    matching_rows customer_df cid = customer_data :: others ->
    mapM (getitem texts)
         (snd (index_search idx (embed (create_customer_query customer_data)) 3%nat))
    = Return retrieved_docs ->
    In EmptyString retrieved_docs ->
    get_recommendation embed index_search generate cid customer_df idx texts
    = (Raise IndexError, []).
Proof.
  intros embed index_search generate cid customer_df idx texts customer_data others
         retrieved_docs Hrow Hdocs Hempty.
  rewrite (get_recommendation_found _ _ _ _ _ _ _ _ _ Hrow).
  destruct (assemble _ _ _) as [prompt | e] eqn:Hasm;
    [| now rewrite (assemble_raises _ _ _ _ Hasm)].
  exfalso. revert Hasm. unfold assemble. rewrite Hdocs. cbn [bind].
  assert (Hfail : returned (mapM first_line retrieved_docs) = false).
  { apply mapM_Exists_raises. apply List.Exists_exists.
    exists EmptyString. split; [exact Hempty | reflexivity]. }
  destruct (mapM first_line retrieved_docs); [discriminate | cbn [bind]; discriminate].
Qed.

Lemma empty_document_raises_witness :
  get_recommendation Fixtures.length_embed Fixtures.flat_search
    (Fixtures.constant_service "Take the Gold Card.")
    1 [Fixtures.sample_profile] Fixtures.three_index Scenarios.reloaded_segments
  = (Raise IndexError, []).
Proof.
  apply (empty_document_raises Fixtures.length_embed Fixtures.flat_search
           (Fixtures.constant_service "Take the Gold Card.")
           1 [Fixtures.sample_profile] Fixtures.three_index Scenarios.reloaded_segments
           Fixtures.sample_profile []
           [nl +:+ "Home Loans" +:+ nl; EmptyString; nl +:+ "Gold Card" +:+ nl]).
  - vm_compute; reflexivity.
  - vm_compute; reflexivity.
  - simpl. right. left. reflexivity.
Defined.

Lemma assemble_three texts l0 l1 l2 query d0 d1 d2 :
  getitem texts l0 = Return d0 ->
  getitem texts l1 = Return d1 ->
  getitem texts l2 = Return d2 ->
  d0 <> EmptyString -> d1 <> EmptyString -> d2 <> EmptyString ->
  assemble texts [l0; l1; l2] query = Return (build_prompt query d0 d1 d2).
Proof.
  intros H0 H1 H2 N0 N1 N2. unfold assemble. simpl mapM at 1.
  rewrite H0, H1, H2. cbn [bind].
  destruct d0; [contradiction |]. destruct d1; [contradiction |].
  destruct d2; [contradiction |]. reflexivity.
Qed.

(** X9. For a found customer, when the search answers with two labels and
    then [-1], the third product of the prompt is the last product text:
    the subscript [-1] is not refused. *)
Theorem padding_label_selects_last_document :
  forall embed index_search generate (cid : Z) (customer_df : list CustomerProfile)
         (idx : Index) (front : list string) (last_doc : string)
         (customer_data : CustomerProfile) (others : list CustomerProfile)
         (distances : list Q) (l0 l1 : Z) (doc0 doc1 : string),
    matching_rows customer_df cid = customer_data :: others ->
    index_search idx (embed (create_customer_query customer_data)) 3%nat
    = (distances, [l0; l1; -1]) ->
    getitem (front ++ [last_doc]) l0 = Return doc0 ->
    getitem (front ++ [last_doc]) l1 = Return doc1 ->
    doc0 <> EmptyString -> doc1 <> EmptyString -> last_doc <> EmptyString ->
    get_recommendation embed index_search generate cid customer_df idx
      (front ++ [last_doc])
    = (generate
         (mkRequest "llama3-8b-8192"
            [mkMessage "user"
               (build_prompt (create_customer_query customer_data) doc0 doc1 last_doc)]
            (1 # 2)),
       [mkRequest "llama3-8b-8192"
          [mkMessage "user"
             (build_prompt (create_customer_query customer_data) doc0 doc1 last_doc)]
          (1 # 2)]).
Proof.
  intros embed index_search generate cid customer_df idx front last_doc customer_data
         others distances l0 l1 doc0 doc1 Hrow Hsearch H0 H1 N0 N1 N2.
  rewrite (get_recommendation_found _ _ _ _ _ _ _ _ _ Hrow), Hsearch. simpl snd.
  assert (Hlast : getitem (front ++ [last_doc]) (-1) = Return last_doc).
  { apply (getitem_negative (front ++ [last_doc]) 0 last_doc).
    - rewrite length_app. simpl. lia.
    - rewrite length_app. simpl.
      replace (List.length front + 1 - 1)%nat with (List.length front + 0)%nat by lia.
      now rewrite lookup_app_r, Nat.add_0_r, Nat.sub_diag by lia. }
  now rewrite (assemble_three _ _ _ _ _ _ _ _ H0 H1 Hlast N0 N1 N2).
Qed.

Lemma padding_label_selects_last_document_witness :
  snd (Scenarios.padded_search Scenarios.two_index
         (Fixtures.length_embed (create_customer_query Fixtures.sample_profile)) 3)
  = [1; 0; -1]
  /\ get_recommendation Fixtures.length_embed Scenarios.padded_search
       (Fixtures.constant_service "Take the Home Loans.")
       1 [Fixtures.sample_profile] Scenarios.two_index (["Gold Card"] ++ ["Home Loans"])
     = (Return "Take the Home Loans.",
        [mkRequest "llama3-8b-8192"
           [mkMessage "user"
              (build_prompt (create_customer_query Fixtures.sample_profile)
                 "Home Loans" "Gold Card" "Home Loans")]
           (1 # 2)]).
Proof.
  split; [vm_compute; reflexivity |].
  apply (padding_label_selects_last_document Fixtures.length_embed Scenarios.padded_search
           (Fixtures.constant_service "Take the Home Loans.")
           1 [Fixtures.sample_profile] Scenarios.two_index ["Gold Card"] "Home Loans"
           Fixtures.sample_profile []
           (fst (Scenarios.padded_search Scenarios.two_index
                   (Fixtures.length_embed (create_customer_query Fixtures.sample_profile)) 3))
           1 0 "Home Loans" "Gold Card").
  - vm_compute; reflexivity.
  - vm_compute; reflexivity.
  - vm_compute; reflexivity.
  - vm_compute; reflexivity.
  - discriminate.
  - discriminate.
  - discriminate.
Defined.

(** ** The demonstration run *)

Lemma filter_head_in {A : Type} (p : A -> bool) (l : list A) a rest :
  List.filter p l = a :: rest -> In a l /\ p a = true.
Proof.
  intros Hf. apply filter_In. rewrite Hf. now left.
Qed.

Lemma matching_rows_member customer_df row :
  In row customer_df ->
  exists first others, matching_rows customer_df (customer_id row) = first :: others.
Proof.
  intros Hin. unfold matching_rows.
  destruct (List.filter _ customer_df) as [| first others] eqn:Hf; [| eauto].
  exfalso.
  assert (Hrow : In row (List.filter (fun r => customer_id r =? customer_id row) customer_df)).
  { apply filter_In. split; [exact Hin | apply Z.eqb_refl]. }
  rewrite Hf in Hrow. exact Hrow.
Qed.

Lemma unique_id_row customer_df row first others :
  NoDup (map customer_id customer_df) ->
  In row customer_df ->
  matching_rows customer_df (customer_id row) = first :: others ->
  first = row.
Proof.
  intros Hnd Hin Hm.
  destruct (filter_head_in _ _ _ _ Hm) as [Hfin Hid]. apply Z.eqb_eq in Hid.
  clear Hm. induction customer_df as [| r l IH]; [contradiction |].
  simpl in Hnd. inversion Hnd as [| ? ? Hnotin Hnd']; subst.
  destruct Hin as [-> | Hin], Hfin as [<- | Hfin]; auto.
  - exfalso. apply Hnotin, list_elem_of_In. rewrite <- Hid. now apply in_map.
  - exfalso. apply Hnotin, list_elem_of_In. rewrite Hid. now apply in_map.
Qed.

(** X10. Whenever [main] prints a recommendation, exactly one request was
    dispatched and the text is the answer of the service to it: the
    customer [main] picks is always found.  The files are those the
    start-up left. *)
Theorem main_prints_only_service_text :
  forall embed index_search generate (csv : result (list CustomerProfile))
         (fs fs' : filesystem) (text : string) (requests : list Request),
    Script.main embed index_search generate csv fs = (Return (Some text), fs', requests) ->
    exists request,
      requests = [request]
      /\ generate request = Return text
      /\ fs' = snd (build_or_load_index embed fs).
Proof.
  intros embed index_search generate csv fs fs' text requests. unfold Script.main.
  destruct (build_or_load_index embed fs) as [[[idx texts] | e] fs1]; [| discriminate].
  destruct csv as [customer_df | e]; [| destruct e; discriminate].
  destruct (List.filter _ customer_df) as [| row rest] eqn:Hf; [discriminate |].
  destruct (filter_head_in _ _ _ _ Hf) as [Hin _].
  destruct (matching_rows_member _ _ Hin) as (first & others & Hrows).
  cbv zeta. rewrite (get_recommendation_found _ _ _ _ _ _ _ _ _ Hrows).
  destruct (assemble _ _ _) as [prompt | e]; [| discriminate].
  destruct (generate _) as [answer | e] eqn:Hgen; cbn [bind]; [| discriminate].
  intros [= <- <- <-]. eexists. repeat split. exact Hgen.
Qed.

Lemma main_prints_only_service_text_witness :
  exists request,
    snd (Script.main Fixtures.length_embed Fixtures.flat_search
           (Fixtures.constant_service "Offer the business line.")
           (Return Scenarios.small_table) Scenarios.fs_three_products)
    = [request]
    /\ Fixtures.constant_service "Offer the business line." request
       = Return "Offer the business line.".
Proof.
  destruct (main_prints_only_service_text Fixtures.length_embed Fixtures.flat_search
              (Fixtures.constant_service "Offer the business line.")
              (Return Scenarios.small_table) Scenarios.fs_three_products
              (snd (build_or_load_index Fixtures.length_embed Scenarios.fs_three_products))
              "Offer the business line."
              (snd (Script.main Fixtures.length_embed Fixtures.flat_search
                      (Fixtures.constant_service "Offer the business line.")
                      (Return Scenarios.small_table) Scenarios.fs_three_products)))
    as (request & Hreq & Hgen & _).
  - vm_compute; reflexivity.
  - exists request. split; assumption.
Defined.

(** X11. On a table without a self-employed customer, [main] raises
    [IndexError] after the start-up has run, and dispatches no request. *)
Theorem main_without_self_employed_customer :
  forall embed index_search generate (customer_df : list CustomerProfile)
         (fs fs' : filesystem) (idx : Index) (texts : list string),
    Forall (fun row => employment_status row <> "Self-Employed") customer_df ->
    build_or_load_index embed fs = (Return (idx, texts), fs') ->
    Script.main embed index_search generate (Return customer_df) fs
    = (Raise IndexError, fs', []).
Proof.
  intros embed index_search generate customer_df fs fs' idx texts Hnone Hbuild.
  unfold Script.main. rewrite Hbuild.
  replace (List.filter _ customer_df) with (@nil CustomerProfile); [reflexivity |].
  symmetry. induction Hnone as [| row rows Hrow Hrows IH]; simpl; [reflexivity |].
  destruct (String.eqb_spec (employment_status row) "Self-Employed");
    [contradiction | exact IH].
Qed.

Lemma main_without_self_employed_customer_witness :
  Script.main Fixtures.length_embed Fixtures.flat_search
    (Fixtures.constant_service "Offer the business line.")
    (Return [Fixtures.sample_profile]) Scenarios.fs_three_products
  = (Raise IndexError,
     snd (build_or_load_index Fixtures.length_embed Scenarios.fs_three_products), []).
Proof.
  apply (main_without_self_employed_customer Fixtures.length_embed Fixtures.flat_search
           (Fixtures.constant_service "Offer the business line.")
           [Fixtures.sample_profile] Scenarios.fs_three_products
           (snd (build_or_load_index Fixtures.length_embed Scenarios.fs_three_products))
           (mkIndex 1 [[9 # 1]; [10 # 1]; [10 # 1]]%Q)
           ["Gold Card"; "Home Loans"; "Saver Plus"]).
  - repeat constructor. vm_compute. discriminate.
  - vm_compute; reflexivity.
Defined.

(** X12. When the customer table is missing, [main] has already run the
    start-up, returns normally and dispatches nothing, whereas
    [load_resources] raises the [FileNotFoundError] before any file is
    touched. *)
Theorem missing_table_in_main_and_app :
  forall embed index_search generate (path : string)
         (fs fs' : filesystem) (idx : Index) (texts : list string),
    build_or_load_index embed fs = (Return (idx, texts), fs') ->
    Script.main embed index_search generate (Raise (FileNotFoundError path)) fs
    = (Return None, fs', [])
    /\ App.load_resources embed (Raise (FileNotFoundError path)) fs
       = (Raise (FileNotFoundError path), fs).
Proof.
  intros embed index_search generate path fs fs' idx texts Hbuild.
  unfold Script.main, App.load_resources. now rewrite Hbuild.
Qed.

Lemma missing_table_in_main_and_app_witness :
  Script.main Fixtures.length_embed Fixtures.flat_search
    (Fixtures.constant_service "Offer the business line.")
    (Raise (FileNotFoundError "processed_customer_data.csv")) Scenarios.fs_three_products
  = (Return None,
     snd (build_or_load_index Fixtures.length_embed Scenarios.fs_three_products), [])
  /\ App.load_resources Fixtures.length_embed
       (Raise (FileNotFoundError "processed_customer_data.csv")) Scenarios.fs_three_products
     = (Raise (FileNotFoundError "processed_customer_data.csv"), Scenarios.fs_three_products).
Proof.
  apply (missing_table_in_main_and_app Fixtures.length_embed Fixtures.flat_search
           (Fixtures.constant_service "Offer the business line.")
           "processed_customer_data.csv" Scenarios.fs_three_products
           (snd (build_or_load_index Fixtures.length_embed Scenarios.fs_three_products))
           (mkIndex 1 [[9 # 1]; [10 # 1]; [10 # 1]]%Q)
           ["Gold Card"; "Home Loans"; "Saver Plus"]).
  vm_compute; reflexivity.
Defined.

Lemma string_app_assoc s1 s2 s3 : (s1 +:+ s2) +:+ s3 = s1 +:+ (s2 +:+ s3).
Proof.
  induction s1 as [| c s1 IH]; [reflexivity |].
  change (String c ((s1 +:+ s2) +:+ s3) = String c (s1 +:+ (s2 +:+ s3))).
  now rewrite IH.
Qed.

Lemma query_ends_with_status row :
  exists before,
    create_customer_query row
    = before +:+ "Employment status: " +:+ employment_status row +:+ ".".
Proof.
  unfold create_customer_query.
  eexists ("Customer profile: "
  +:+ "Age " +:+ str_int (age row) +:+ ". "
  +:+ "Income of $" +:+ format_f 0 (income row) +:+ ". "
  +:+ "Credit score is " +:+ str_int (credit_score row) +:+ ". "
  +:+ "Debt-to-income ratio is " +:+ format_f 2 (debt_to_income_ratio row) +:+ ". "
  +:+ "Holds " +:+ str_int (product_count row) +:+ " products, including: "
  +:+ existing_products row +:+ ". "
  +:+ "Digital engagement score is " +:+ str_int (engagement_score row) +:+ ". ").
  rewrite !string_app_assoc. reflexivity.
Qed.

Lemma prompt_holds_status row doc0 doc1 doc2 :
  occur_in_order
    ["Employment status: " +:+ employment_status row +:+ "."]
    (build_prompt (create_customer_query row) doc0 doc1 doc2).
Proof.
  destruct (query_ends_with_status row) as [before Hq].
  simpl. unfold build_prompt. rewrite Hq.
  exists (prompt_head +:+ before),
         (prompt_products +:+ doc0 +:+ prompt_second +:+ doc1
          +:+ prompt_third +:+ doc2 +:+ prompt_tail).
  split; [| exact I]. now rewrite !string_app_assoc.
Qed.

(** X13. On a table with unique customer identifiers, every request [main]
    dispatches is built from a row of the table whose employment status
    is [Self-Employed], and its prompt says so. *)
Theorem main_recommends_for_self_employed :
  forall embed index_search generate (customer_df : list CustomerProfile)
         (fs fs' : filesystem) (outcome : result (option string))
         (request : Request) (requests : list Request),
    NoDup (map customer_id customer_df) ->
    Script.main embed index_search generate (Return customer_df) fs
    = (outcome, fs', requests) ->
    In request requests ->
    exists row doc0 doc1 doc2,
      In row customer_df
      /\ employment_status row = "Self-Employed"
      /\ request
         = mkRequest "llama3-8b-8192"
             [mkMessage "user" (build_prompt (create_customer_query row) doc0 doc1 doc2)]
             (1 # 2)
      /\ occur_in_order
           ["Employment status: Self-Employed."]
           (build_prompt (create_customer_query row) doc0 doc1 doc2).
Proof.
  intros embed index_search generate customer_df fs fs' outcome request requests Hnd.
  unfold Script.main.
  destruct (build_or_load_index embed fs) as [[[idx texts] | e] fs1];
    [| intros [= <- <- <-]; contradiction].
  destruct (List.filter _ customer_df) as [| row rest] eqn:Hf;
    [intros [= <- <- <-]; contradiction |].
  destruct (filter_head_in _ _ _ _ Hf) as [Hin Hstatus].
  apply String.eqb_eq in Hstatus.
  destruct (matching_rows_member _ _ Hin) as (first & others & Hrows).
  pose proof (unique_id_row _ _ _ _ Hnd Hin Hrows) as ->.
  cbv zeta. rewrite (get_recommendation_found _ _ _ _ _ _ _ _ _ Hrows).
  destruct (assemble _ _ _) as [prompt | e] eqn:Hasm;
    [| intros [= <- <- <-]; contradiction].
  destruct (assemble_returns _ _ _ _ Hasm) as (d0 & d1 & d2 & ->).
  intros [= <- <- <-] [<- | []].
  exists row, d0, d1, d2. repeat split; try assumption.
  pose proof (prompt_holds_status row d0 d1 d2) as Hp. now rewrite Hstatus in Hp.
Qed.

Lemma main_recommends_for_self_employed_witness :
  exists row doc0 doc1 doc2,
    In row Scenarios.small_table
    /\ employment_status row = "Self-Employed"
    /\ occur_in_order
         ["Employment status: Self-Employed."]
         (build_prompt (create_customer_query row) doc0 doc1 doc2).
Proof.
  destruct (main_recommends_for_self_employed Fixtures.length_embed Fixtures.flat_search
              (Fixtures.constant_service "Offer the business line.")
              Scenarios.small_table Scenarios.fs_three_products
              (snd (build_or_load_index Fixtures.length_embed Scenarios.fs_three_products))
              (Return (Some "Offer the business line."))
              (mkRequest "llama3-8b-8192"
                 [mkMessage "user"
                    (build_prompt (create_customer_query Scenarios.self_employed_profile)
                       "Home Loans" "Saver Plus" "Gold Card")]
                 (1 # 2))
              [mkRequest "llama3-8b-8192"
                 [mkMessage "user"
                    (build_prompt (create_customer_query Scenarios.self_employed_profile)
                       "Home Loans" "Saver Plus" "Gold Card")]
                 (1 # 2)])
    as (row & d0 & d1 & d2 & Hin & Hstatus & Hreq & Hocc).
  - apply NoDup_ListNoDup. repeat constructor; simpl; intuition discriminate.
  - vm_compute; reflexivity.
  - left. reflexivity.
  - exists row, d0, d1, d2. repeat split; assumption.
Defined.

(** ** The button handler of the front end *)

(** X14. For an input of at least one, the button handler never renders the
    error box; for an identifier that is in no row it renders a report
    with an empty snapshot and the fixed not-found text as the
    recommendation, and dispatches nothing. *)
Theorem handler_reports_unknown_customer :
  forall embed index_search generate (customer_id_input : Z)
         (customer_df : list CustomerProfile) (idx : Index) (texts : list string),
    1 <= customer_id_input ->
    (forall message,
       fst (App.on_generate embed index_search generate customer_id_input
              customer_df idx texts)
       <> Return (App.ErrorBox message))
    /\ (absent customer_id_input customer_df ->
        App.on_generate embed index_search generate customer_id_input customer_df idx texts
        = (Return (App.Report [] (App.word_wrap NOT_FOUND_MESSAGE)), [])).
Proof.
  intros embed index_search generate input customer_df idx texts Hmin.
  unfold App.on_generate.
  replace (input =? 0) with false by (symmetry; apply Z.eqb_neq; lia).
  cbn [negb]. split.
  - intros message.
    destruct (get_recommendation _ _ _ _ _ _ _) as [[text | e] requests]; simpl;
      discriminate.
  - intros Habs. rewrite (get_recommendation_absent _ _ _ _ _ _ _ Habs).
    rewrite (matching_rows_absent _ _ Habs). reflexivity.
Qed.

Lemma handler_reports_unknown_customer_witness :
  App.on_generate Fixtures.length_embed Fixtures.flat_search
    (Fixtures.constant_service "Offer the business line.")
    42 Scenarios.small_table Fixtures.three_index Fixtures.three_products
  = (Return (App.Report [] (App.word_wrap NOT_FOUND_MESSAGE)), []).
Proof.
  apply (handler_reports_unknown_customer Fixtures.length_embed Fixtures.flat_search
           (Fixtures.constant_service "Offer the business line.")
           42 Scenarios.small_table Fixtures.three_index Fixtures.three_products).
  - lia.
  - repeat constructor; vm_compute; discriminate.
Defined.

(** X15. Whenever the button handler dispatches a request, the snapshot it
    renders is the list of rows with the entered identifier, the prompt
    is built from the first of them, and the page shows the answer of the
    service to that request. *)
Theorem handler_snapshot_matches_prompt :
  forall embed index_search generate (customer_id_input : Z)
         (customer_df : list CustomerProfile) (idx : Index) (texts : list string)
         (request : Request),
    In request
       (snd (App.on_generate embed index_search generate customer_id_input
               customer_df idx texts)) ->
    exists row others doc0 doc1 doc2,
      matching_rows customer_df customer_id_input = row :: others
      /\ request
         = mkRequest "llama3-8b-8192"
             [mkMessage "user" (build_prompt (create_customer_query row) doc0 doc1 doc2)]
             (1 # 2)
      /\ App.on_generate embed index_search generate customer_id_input customer_df idx texts
         = (do text <- generate request;
            Return (App.Report (row :: others) (App.word_wrap text)),
            [request]).
Proof.
  intros embed index_search generate input customer_df idx texts request.
  unfold App.on_generate.
  destruct (negb (input =? 0)); [| intros []].
  destruct (matching_rows customer_df input) as [| row others] eqn:Hrows.
  - unfold get_recommendation. rewrite Hrows. intros [].
  - rewrite (get_recommendation_found _ _ _ _ _ _ _ _ _ Hrows).
    destruct (assemble _ _ _) as [prompt | e] eqn:Hasm; [| intros []].
    destruct (assemble_returns _ _ _ _ Hasm) as (d0 & d1 & d2 & ->).
    intros [<- | []]. exists row, others, d0, d1, d2. repeat split.
Qed.

Lemma handler_snapshot_matches_prompt_witness :
  exists row others doc0 doc1 doc2,
    matching_rows Scenarios.small_table 2 = row :: others
    /\ App.on_generate Fixtures.length_embed Fixtures.flat_search
         (Fixtures.constant_service "Offer the business line.")
         2 Scenarios.small_table Fixtures.three_index Fixtures.three_products
       = (Return (App.Report (row :: others) (App.word_wrap "Offer the business line.")),
          [mkRequest "llama3-8b-8192"
             [mkMessage "user" (build_prompt (create_customer_query row) doc0 doc1 doc2)]
             (1 # 2)]).
Proof.
  destruct (handler_snapshot_matches_prompt Fixtures.length_embed Fixtures.flat_search
              (Fixtures.constant_service "Offer the business line.")
              2 Scenarios.small_table Fixtures.three_index Fixtures.three_products
              (mkRequest "llama3-8b-8192"
                 [mkMessage "user"
                    (build_prompt (create_customer_query Scenarios.self_employed_profile)
                       "Saver Plus" "Gold Card" "Home Loans")]
                 (1 # 2)))
    as (row & others & d0 & d1 & d2 & Hrows & Hreq & Hpage).
  - vm_compute. left. reflexivity.
  - exists row, others, d0, d1, d2. split; [exact Hrows |].
    rewrite Hpage, Hreq. reflexivity.
Defined.

(** ** Generated data and derived features *)

Lemma split_char_length c s :
  (String.length
     (String.concat "" (fst (split_go (String c "") 0 s) :: snd (split_go (String c "") 0 s)))
   + count_char c s = String.length s)%nat.
Proof.
  induction s as [| a s IH]; [reflexivity |].
  cbn [split_go String.prefix count_char].
  destruct (Ascii.ascii_dec c a) as [<- | Hne].
  - rewrite Ascii.eqb_refl.
    change (String.length (String c "") - 1)%nat with 0%nat.
    destruct (split_go (String c "") 0 s) as [seg segs].
    change (String.concat "" ("" :: seg :: segs))
      with (String.concat "" (seg :: segs)).
    change (String.concat "" (fst (seg, segs) :: snd (seg, segs)))
      with (String.concat "" (seg :: segs)) in IH.
    replace (String.prefix "" s) with true by (destruct s; reflexivity).
    cbn [fst snd].
    change (String.concat "" ("" :: seg :: segs))
      with (String.concat "" (seg :: segs)).
    cbn [String.length]. lia.
  - replace (Ascii.eqb a c) with false
      by (symmetry; apply Ascii.eqb_neq; congruence).
    destruct (split_go (String c "") 0 s) as [seg segs].
    change (String.concat "" (fst (seg, segs) :: snd (seg, segs)))
      with (String.concat "" (seg :: segs)) in IH.
    change (String.length (String.concat "" (String a seg :: segs))
            + count_char c s = String.length (String a s))%nat.
    rewrite concat_cons_char. cbn [String.length]. lia.
Qed.

Lemma sql_replace_comma_length s :
  (String.length (ProcessData.sql_replace s "," "") + count_char comma s
   = String.length s)%nat.
Proof.
  unfold ProcessData.sql_replace. cbn [is_empty]. unfold split.
  pose proof (split_char_length comma s) as H.
  change (String comma "") with ","%string in H.
  destruct (split_go "," 0 s) as [seg segs]. exact H.
Qed.

Lemma product_count_counts_commas_aux (c : GenerateData.RawCustomer) :
  ProcessData.product_count (ProcessData.select_row c)
  = Z.of_nat (count_char comma (GenerateData.existing_products c)) + 1.
Proof.
  unfold ProcessData.select_row. cbn [ProcessData.product_count].
  pose proof (sql_replace_comma_length (GenerateData.existing_products c)).
  lia.
Qed.

(** X16. The derived column [product_count] is the number of commas in
    [existing_products] plus one; it is never below one, so an empty
    product string counts as one product. *)
Theorem product_count_counts_commas :
  forall c : GenerateData.RawCustomer,
    ProcessData.product_count (ProcessData.select_row c)
    = Z.of_nat (count_char comma (GenerateData.existing_products c)) + 1
    /\ 1 <= ProcessData.product_count (ProcessData.select_row c).
Proof.
  intros c. unfold ProcessData.select_row. cbn [ProcessData.product_count].
  pose proof (sql_replace_comma_length (GenerateData.existing_products c)).
  lia.
Qed.

Lemma count_char_app c s1 s2 :
  count_char c (s1 +:+ s2) = (count_char c s1 + count_char c s2)%nat.
Proof.
  induction s1 as [| a s1 IH]; [reflexivity |].
  change (count_char c (String a (s1 +:+ s2))
          = (count_char c (String a s1) + count_char c s2)%nat).
  cbn [count_char]. destruct (Ascii.eqb a c); lia.
Qed.

Lemma count_commas_join names :
  Forall (fun name => count_char comma name = 0%nat) names ->
  count_char comma (String.concat "," names) = (List.length names - 1)%nat.
Proof.
  induction 1 as [| name names Hname Hnames IH]; [reflexivity |].
  destruct names as [| name' names'].
  - simpl. rewrite Hname. reflexivity.
  - change (String.concat "," (name :: name' :: names'))
      with (name +:+ "," +:+ String.concat "," (name' :: names')).
    rewrite !count_char_app, Hname, IH. simpl. lia.
Qed.

Lemma product_names_comma_free name :
  In name GenerateData.PRODUCT_LIST -> count_char comma name = 0%nat.
Proof.
  intros Hin.
  assert (Hall : forallb (fun n => Nat.eqb (count_char comma n) 0) GenerateData.PRODUCT_LIST
                 = true) by reflexivity.
  rewrite forallb_forall in Hall. now apply Nat.eqb_eq, Hall.
Qed.

(** X17. For a generated record whose draws are within the ranges the
    generator asks for, the pipeline's [product_count] is the number of
    products drawn, between one and four, the engagement score lies
    between 0 and 80, and the debt-to-income ratio is not [NULL]. *)
Theorem generated_row_features :
  forall (i : nat) (r : GenerateData.Draws),
    GenerateData.in_range r ->
    let row := ProcessData.select_row (GenerateData.customer_record i r) in
    ProcessData.product_count row = Z.of_nat (List.length (GenerateData.drawn_products r))
    /\ 1 <= ProcessData.product_count row <= 4
    /\ 0 <= ProcessData.engagement_score row <= 80
    /\ ProcessData.debt_to_income_ratio row <> None.
Proof.
  intros i r (Hage & Hinc & Hcs & _ & _ & _ & _ & Hlen & Hnd & Hnames & Hpay & Hemp
              & Hopen & Hlog & Hcalls & Hweb)
         row.
  assert (Hcount : ProcessData.product_count row
                   = Z.of_nat (List.length (GenerateData.drawn_products r))).
  { pose proof (product_count_counts_commas_aux (GenerateData.customer_record i r)) as Hpc.
    subst row. rewrite Hpc. cbn [GenerateData.customer_record GenerateData.existing_products].
    rewrite count_commas_join; [lia |].
    eapply List.Forall_impl; [| exact Hnames]. apply product_names_comma_free. }
  split; [exact Hcount |]. split; [rewrite Hcount; lia |]. split.
  - subst row. simpl. lia.
  - subst row. unfold ProcessData.select_row.
    cbn [ProcessData.debt_to_income_ratio GenerateData.customer_record GenerateData.income].
    replace (GenerateData.drawn_income r =? 0) with false
      by (symmetry; apply Z.eqb_neq; lia).
    discriminate.
Qed.

Lemma generated_row_features_witness :
  GenerateData.in_range (Scenarios.fixed_draws 0)
  /\ ProcessData.product_count
       (ProcessData.select_row (GenerateData.customer_record 0 (Scenarios.fixed_draws 0)))
     = 2
  /\ ProcessData.engagement_score
       (ProcessData.select_row (GenerateData.customer_record 0 (Scenarios.fixed_draws 0)))
     = 14.
Proof.
  assert (Hrange : GenerateData.in_range (Scenarios.fixed_draws 0)).
  { unfold GenerateData.in_range. simpl.
    repeat split; try lia; try (simpl; tauto); try (unfold Qle; simpl; lia).
    - apply NoDup_ListNoDup. repeat constructor; simpl; intuition discriminate.
    - repeat constructor; simpl; tauto. }
  split; [exact Hrange |].
  destruct (generated_row_features 0 (Scenarios.fixed_draws 0) Hrange) as (Hcount & _).
  split; [rewrite Hcount; reflexivity | reflexivity].
Defined.

Lemma ids_filter_none (l : list CustomerProfile) (start n : nat) (cid : Z) :
  map customer_id l = map (fun i => Z.of_nat i + 1) (seq start n) ->
  cid < Z.of_nat start + 1 \/ Z.of_nat start + Z.of_nat n < cid ->
  matching_rows l cid = [].
Proof.
  revert l start. induction n as [| n IH]; intros l start Hids Hout.
  - destruct l; [reflexivity | discriminate].
  - destruct l as [| row l]; [discriminate |].
    simpl in Hids. injection Hids as Hid Hrest.
    unfold matching_rows. simpl.
    replace (customer_id row =? cid) with false by (symmetry; apply Z.eqb_neq; lia).
    apply (IH l (S start) Hrest). lia.
Qed.

Lemma ids_filter_one (l : list CustomerProfile) (start n : nat) (cid : Z) :
  map customer_id l = map (fun i => Z.of_nat i + 1) (seq start n) ->
  Z.of_nat start + 1 <= cid <= Z.of_nat start + Z.of_nat n ->
  exists row,
    matching_rows l cid = [row]
    /\ l !! Z.to_nat (cid - Z.of_nat start - 1) = Some row
    /\ customer_id row = cid.
Proof.
  revert l start. induction n as [| n IH]; intros l start Hids Hin; [lia |].
  destruct l as [| row l]; [discriminate |].
  simpl in Hids. injection Hids as Hid Hrest.
  unfold matching_rows. simpl.
  destruct (Z.eqb_spec (customer_id row) cid) as [Heq | Hne].
  - exists row. repeat split; [| | exact Heq].
    + f_equal. apply (ids_filter_none l (S start) n cid Hrest). lia.
    + replace (Z.to_nat (cid - Z.of_nat start - 1)) with 0%nat by lia. reflexivity.
  - destruct (IH l (S start) Hrest) as (found & Hm & Hl & Hc); [lia |].
    exists found. repeat split; [exact Hm | | exact Hc].
    replace (Z.to_nat (cid - Z.of_nat start - 1))
      with (S (Z.to_nat (cid - Z.of_nat (S start) - 1))) by lia.
    exact Hl.
Qed.

Lemma read_generated_profiles (draw : nat -> GenerateData.Draws) (positions : list nat) :
  (forall i, GenerateData.in_range (draw i)) ->
  exists customer_df,
    ProcessData.read_profiles
      (ProcessData.data_processing_pipeline
         (map (fun i => GenerateData.customer_record i (draw i)) positions))
    = Some customer_df
    /\ map customer_id customer_df = map (fun i => Z.of_nat i + 1) positions.
Proof.
  intros Hrange. induction positions as [| i positions (df & Hdf & Hids)].
  - exists []. split; reflexivity.
  - destruct (Hrange i) as (_ & Hinc & _).
    unfold ProcessData.data_processing_pipeline in *. cbn [map ProcessData.read_profiles].
    rewrite Hdf.
    unfold ProcessData.to_profile, ProcessData.select_row.
    cbn [ProcessData.debt_to_income_ratio GenerateData.customer_record GenerateData.income].
    replace (GenerateData.drawn_income (draw i) =? 0) with false
      by (symmetry; apply Z.eqb_neq; lia).
    eexists. split; [reflexivity |]. simpl. now rewrite Hids.
Qed.

(** X18. A table generated with in-range draws, run through the pipeline and
    read back, has one row per generated customer, and every identifier
    from 1 to the number of rows (the range of the input widget) selects
    exactly one row, the one at that position. *)
Theorem generated_ids_are_all_found :
  forall (draw : nat -> GenerateData.Draws) (num_customers : nat),
    (forall i, GenerateData.in_range (draw i)) ->
    exists customer_df,
      ProcessData.read_profiles
        (ProcessData.data_processing_pipeline
           (GenerateData.generate_customer_data draw num_customers))
      = Some customer_df
      /\ List.length customer_df = num_customers
      /\ forall cid : Z,
           1 <= cid <= Z.of_nat (List.length customer_df) ->
           exists row,
             matching_rows customer_df cid = [row]
             /\ customer_df !! Z.to_nat (cid - 1) = Some row
             /\ customer_id row = cid.
Proof.
  intros draw n Hrange.
  destruct (read_generated_profiles draw (seq 0 n) Hrange) as (df & Hdf & Hids).
  exists df. split; [exact Hdf |].
  assert (Hlen : List.length df = n).
  { rewrite <- (length_map customer_id), Hids, length_map. apply length_seq. }
  split; [exact Hlen |].
  intros cid Hcid. rewrite Hlen in Hcid.
  destruct (ids_filter_one df 0 n cid Hids) as (row & Hm & Hl & Hc); [simpl; lia |].
  exists row. repeat split; [exact Hm | | exact Hc].
  simpl in Hl. now rewrite Z.sub_0_r in Hl.
Qed.

Lemma generated_ids_are_all_found_witness :
  exists customer_df,
    ProcessData.read_profiles
      (ProcessData.data_processing_pipeline
         (GenerateData.generate_customer_data Scenarios.fixed_draws 3))
    = Some customer_df
    /\ List.length customer_df = 3%nat
    /\ exists row, matching_rows customer_df 2 = [row] /\ customer_id row = 2.
Proof.
  assert (Hrange : forall i, GenerateData.in_range (Scenarios.fixed_draws i)).
  { intros i. unfold GenerateData.in_range. simpl.
    repeat split; try lia; try (simpl; tauto); try (unfold Qle; simpl; lia).
    - apply NoDup_ListNoDup. repeat constructor; simpl; intuition discriminate.
    - repeat constructor; simpl; tauto. }
  destruct (generated_ids_are_all_found Scenarios.fixed_draws 3 Hrange)
    as (df & Hdf & Hlen & Hfound).
  exists df. split; [exact Hdf |]. split; [exact Hlen |].
  destruct (Hfound 2) as (row & Hm & _ & Hc); [rewrite Hlen; lia |].
  exists row. split; assumption.
Defined.

